(** * api/deploy.js: quota tracker and upload processor

    A shallow embedding of the deployment endpoint of [src/api/deploy.js]:
    the archive safety filter [isSafeFile], the per-client quota store
    ([deploymentData], [getQuotaInfo], [saveQuotaInfo]) and the request
    handler exported by the module.

    Conventions.
    - A JavaScript string is a [string]; a non-ASCII character is the
      sequence of its UTF-8 bytes.  Every character the program inspects
      (the dot, the slash, the letters of the fixed extensions and names) is
      ASCII and no byte of a multi-byte sequence is, so the tests on
      characters agree with the tests on UTF-16 code units.
    - A JavaScript number holding an integer (a quota, a millisecond
      timestamp, a status code) is a [Z].
    - [path] is Node's POSIX flavour: the only separator is the slash. *)

From Stdlib Require Import ZArith Ascii String List Permutation.
From stdpp Require Import gmap strings list fin_maps.

Open Scope Z_scope.

(** ** JavaScript string methods *)

Module Js.

(** One character of [String.prototype.toLowerCase]: the ASCII capitals
    move to their small letters, every other byte stays. *)
Definition lowerChar (c : ascii) : ascii :=
  let n := nat_of_ascii c in
  if ((65 <=? n) && (n <=? 90))%nat then ascii_of_nat (n + 32) else c.

Fixpoint toLowerCase (s : string) : string :=
  match s with
  | EmptyString => EmptyString
  | String c s' => String (lowerChar c) (toLowerCase s')
  end.

(** [s.startsWith(p)]. *)
Fixpoint startsWith (s p : string) : bool :=
  match p, s with
  | EmptyString, _ => true
  | String _ _, EmptyString => false
  | String a p', String b s' => Ascii.eqb a b && startsWith s' p'
  end.

(** [s.includes(sub)]: [sub] starts at some position of [s]. *)
Fixpoint includes (s sub : string) : bool :=
  startsWith s sub ||
  match s with
  | EmptyString => false
  | String _ s' => includes s' sub
  end.

(** [s.endsWith(suf)], read from the right end. *)
Definition endsWith (s suf : string) : bool :=
  startsWith (String.rev s) (String.rev suf).

(** [arr.includes(x)] on an array of strings (strict equality). *)
Definition arrayIncludes (arr : list string) (x : string) : bool :=
  existsb (String.eqb x) arr.

End Js.

(** ** Node's [path.basename] and [path.extname] (POSIX)

    Both functions scan the path from its right end: the separators that end
    the path are skipped, and the characters up to the next separator are the
    last portion of the path.  The scan is written on the reversed string. *)

Module Path.

Definition slash : ascii := "/"%char.
Definition dot : ascii := "."%char.

(** Skip the separators at the end of the path ([matchedSlash] still true). *)
Fixpoint skipSeparators (r : string) : string :=
  match r with
  | String c r' => if Ascii.eqb c slash then skipSeparators r' else r
  | EmptyString => EmptyString
  end.

(** The characters before the next separator. *)
Fixpoint untilSeparator (r : string) : string :=
  match r with
  | String c r' => if Ascii.eqb c slash then EmptyString else String c (untilSeparator r')
  | EmptyString => EmptyString
  end.

(** The last portion of the path, reversed. *)
Definition lastPortionRev (p : string) : string :=
  untilSeparator (skipSeparators (String.rev p)).

Definition basename (p : string) : string := String.rev (lastPortionRev p).

(** Split a reversed portion at its first dot, which is the last dot of the
    portion: the characters right of the dot (reversed) and the characters
    left of it (reversed).  [None] when the portion has no dot. *)
Fixpoint splitAtDot (r : string) : option (string * string) :=
  match r with
  | EmptyString => None
  | String c r' =>
      if Ascii.eqb c dot then Some (EmptyString, r')
      else match splitAtDot r' with
           | Some (e, rest) => Some (String c e, rest)
           | None => None
           end
  end.

(** [path.extname]: from the last dot of the last portion to its end; empty
    when the portion has no dot ([startDot === -1]), when nothing stands
    left of that dot ([preDotState === 0]), and when the portion is exactly
    two dots. *)
Definition extname (p : string) : string :=
  match splitAtDot (lastPortionRev p) with
  | None => EmptyString
  | Some (e, rest) =>
      match rest with
      | EmptyString => EmptyString
      | _ =>
          if String.eqb e EmptyString && String.eqb rest "."
          then EmptyString
          else String.rev (e +:+ ".")
      end
  end.

End Path.

(** ** The safety filter (deploy.js, function isSafeFile) *)

Definition safeExtensions : list string :=
  [".html"; ".htm"; ".css"; ".js"; ".json"; ".txt"; ".md";
   ".jpg"; ".jpeg"; ".png"; ".gif"; ".svg"; ".ico";
   ".woff"; ".woff2"; ".ttf"; ".eot"; ".webp"].

Definition isSafeFile (filePath : string) : bool :=
  let ext := Js.toLowerCase (Path.extname filePath) in
  if negb (Js.arrayIncludes safeExtensions ext) then false
  else if Js.includes filePath ".." || Js.includes filePath "//" then false
  else
    let basename := Path.basename filePath in
    if Js.startsWith basename "." && negb (String.eqb basename ".htaccess") then false
    else true.

(** ** The quota store

    [deploymentData] is a JavaScript [Map] from client identifiers to
    objects.  The objects are shared: [getQuotaInfo] hands out the object that
    the map holds, the handler mutates it in place, and the sweep may have
    removed it from the map in between.  The store is therefore a heap of
    objects together with the map from identifiers to references. *)

Record QuotaInfo := {
  remaining : Z;
  lastReset : string;
  lastDeployment : option Z;      (* [null] or a timestamp *)
  cooldownUntil : Z
}.

Global Instance QuotaInfo_inhabited : Inhabited QuotaInfo :=
  populate {| remaining := 0; lastReset := ""; lastDeployment := None; cooldownUntil := 0 |}.

(** A reference to an object of the heap. *)
Abbreviation ref := nat.

Record Store := {
  heap : list QuotaInfo;
  deploymentData : gmap string ref
}.

(** [let deploymentData = new Map()] *)
Definition emptyStore : Store := {| heap := []; deploymentData := ∅ |}.

(** The object a client identifier is mapped to, if any. *)
Definition record (s : Store) (clientId : string) : option QuotaInfo :=
  match deploymentData s !! clientId with
  | Some l => heap s !! l
  | None => None
  end.

(** Field assignments on an object. *)
Definition set_remaining (v : Z) (d : QuotaInfo) : QuotaInfo :=
  {| remaining := v; lastReset := lastReset d;
     lastDeployment := lastDeployment d; cooldownUntil := cooldownUntil d |}.
Definition set_lastReset (v : string) (d : QuotaInfo) : QuotaInfo :=
  {| remaining := remaining d; lastReset := v;
     lastDeployment := lastDeployment d; cooldownUntil := cooldownUntil d |}.
Definition set_lastDeployment (v : option Z) (d : QuotaInfo) : QuotaInfo :=
  {| remaining := remaining d; lastReset := lastReset d;
     lastDeployment := v; cooldownUntil := cooldownUntil d |}.
Definition set_cooldownUntil (v : Z) (d : QuotaInfo) : QuotaInfo :=
  {| remaining := remaining d; lastReset := lastReset d;
     lastDeployment := lastDeployment d; cooldownUntil := v |}.

(** [obj.field = ...] through a reference. *)
Definition mutate (f : QuotaInfo → QuotaInfo) (l : ref) (s : Store) : Store :=
  {| heap := alter f l (heap s); deploymentData := deploymentData s |}.

(** Reading through a reference. *)
Definition deref (s : Store) (l : ref) : QuotaInfo := heap s !!! l.

(** The object of a client first seen today. *)
Definition newQuota (today : string) : QuotaInfo :=
  {| remaining := 50; lastReset := today; lastDeployment := None; cooldownUntil := 0 |}.

(** [if (!deploymentData.has(clientId)) deploymentData.set(clientId, {...})] *)
Definition ensure (today clientId : string) (s : Store) : Store :=
  match deploymentData s !! clientId with
  | Some _ => s
  | None =>
      {| heap := heap s ++ [newQuota today];
         deploymentData := <[clientId := length (heap s)]> (deploymentData s) |}
  end.

(** [if (data.lastReset !== today) { data.remaining = 50; data.lastReset =
    today; data.cooldownUntil = 0 }] *)
Definition rollover (today : string) (d : QuotaInfo) : QuotaInfo :=
  if String.eqb (lastReset d) today then d
  else set_cooldownUntil 0 (set_lastReset today (set_remaining 50 d)).

(** [now - (value.lastDeployment || now) > 24 * 60 * 60 * 1000]; [null] and
    [0] are the falsy values of the field. *)
Definition expired (now : Z) (value : QuotaInfo) : bool :=
  let last := match lastDeployment value with
              | Some t => if t =? 0 then now else t
              | None => now
              end in
  now - last >? 24 * 60 * 60 * 1000.

(** [deploymentData.forEach((value, key) => { if (...) deploymentData.delete(key) })] *)
Definition cleanup (now : Z) (s : Store) : Store :=
  {| heap := heap s;
     deploymentData :=
       filter (λ kv, expired now (heap s !!! kv.2) = false) (deploymentData s) |}.

(** [getQuotaInfo(clientId)], with the readings of [Date.now()] and of
    [new Date().toDateString()] as arguments.  The result is the reference
    [data] and the store the call leaves. *)
Definition getQuotaInfo (now : Z) (today clientId : string) (s : Store)
  : ref * Store :=
  let s1 := ensure today clientId s in
  let data := deploymentData s1 !!! clientId in
  let s2 := mutate (rollover today) data s1 in
  let s3 := cleanup now s2 in
  (data, s3).

(** [saveQuotaInfo(clientId, info)] *)
Definition saveQuotaInfo (clientId : string) (info : ref) (s : Store) : Store :=
  {| heap := heap s; deploymentData := <[clientId := info]> (deploymentData s) |}.

(** ** Requests, responses and the world around the handler *)

Inductive JsValue :=
| JNum (n : Z)
| JStr (s : string)
| JBool (b : bool).

(** [res.status(code).json(obj)]; [res.status(code).end()] has no body. *)
Record Response := {
  status : Z;
  body : option (list (string * JsValue))
}.

Definition field (k : string) (r : Response) : option JsValue :=
  match body r with
  | Some fs => snd <$> find (λ kv, String.eqb (fst kv) k) fs
  | None => None
  end.

(** The request: its method, the headers and the connection address that
    identify the client, and the three fields read from [req.body], each a
    string or absent.  The body is taken to be an object, as a JSON body
    parser leaves it: a POST that has no body at all, on which the reading of
    the three fields throws, is not among these requests. *)
Record Request := {
  method : string;
  xForwardedFor : option string;
  remoteAddress : option string;
  userAgent : option string;
  name : option string;
  fileData : option string;
  fileName : option string
}.

(** The clock, one reading for each place that reads it. *)
Record Clock := {
  lookupNow : Z;      (* [Date.now()] in getQuotaInfo *)
  today : string;     (* [new Date().toDateString()] in getQuotaInfo *)
  checkNow : Z;       (* [Date.now()] in the cooldown test *)
  secondsNow : Z;     (* [Date.now()] in [remainingSeconds] *)
  deployedNow : Z;    (* [Date.now()] stored in [lastDeployment] *)
  cooldownNow : Z     (* [Date.now()] in the new [cooldownUntil] *)
}.

(** What the deployment provider answers: [deploymentResponse.data], or the
    error object at [deployError.response?.data?.error] ([None] when the chain
    stops at an undefined link, as on a timeout). *)
Record Deployment := { url : option string; id : option string }.
Record ApiError := { code : option string; message : option string }.

Inductive Outcome :=
| Resolved (d : Deployment)
| Rejected (e : option ApiError).

Record World := {
  clock : Clock;
  vercelToken : option string;      (* [process.env.VERCEL_TOKEN] *)
  vercel : Outcome
}.

Record ZipEntry := {
  entryName : string;
  isDirectory : bool;
  getData : string
}.

Record UploadFile := {
  filepath : string;
  content : string;
  isBuffer : bool
}.

(** JavaScript truthiness of a value that is a string or undefined. *)
Definition truthy (v : option string) : bool :=
  match v with
  | Some s => negb (String.eqb s "")
  | None => false
  end.

(** [a || b] on such values. *)
Definition orElse (a : option string) (b : string) : string :=
  match a with
  | Some s => if String.eqb s "" then b else s
  | None => b
  end.

(** [/^[a-z0-9-]+$/.test(name)] *)
Definition nameChar (c : ascii) : bool :=
  let n := nat_of_ascii c in
  ((97 <=? n) && (n <=? 122) || (48 <=? n) && (n <=? 57) || (n =? 45))%nat.

Definition validName (s : string) : bool :=
  negb (String.eqb s "") && forallb nameChar (list_ascii_of_string s).

(** [Math.ceil(x / 1000)] on an integer [x]. *)
Definition ceilSeconds (x : Z) : Z := - ((- x) / 1000).

Definition json (code : Z) (fs : list (string * JsValue)) : Response :=
  {| status := code; body := Some fs |}.

(** The outermost [catch]. *)
Definition serverError (msg : string) : Response :=
  json 500 [("error", JStr ("Terjadi kesalahan server: " +:+ msg))].

(** ** The handler (deploy.js, module.exports)

    The handler runs in two parts: everything up to the call of the
    deployment provider ([prepare]), and the update of the quota once the
    provider has answered ([settle]).  The library functions it calls are
    parameters. *)

(** What [prepare] leaves: a response already sent, or the submission
    awaiting the provider's answer together with the client identifier and
    the reference [quotaInfo] that the handler holds. *)
Inductive Prepared :=
| Reply (r : Response)
| Submit (name : string) (vercelFiles : list (string * string))
         (clientId : string) (quotaInfo : ref).

(** The library functions the handler calls. *)
Class Platform := {
  (** [crypto.createHash('md5').update(x).digest('hex')] *)
  md5hex : string → string;
  (** [new AdmZip(Buffer.from(fileData, 'base64')).getEntries()]; [inl msg]
      when the library throws. *)
  openZip : string → string + list ZipEntry;
  (** [buffer.toString('base64')] *)
  toBase64 : string → string
}.

Section Handler.

Context {platform : Platform}.

Definition getClientId (req : Request) : string :=
  let ip := orElse (xForwardedFor req) (orElse (remoteAddress req) "unknown") in
  let userAgent := orElse (userAgent req) "" in
  md5hex (ip +:+ userAgent).

(** The loop over the entries of the archive. *)
Fixpoint extractEntries (zipEntries : list ZipEntry) : list UploadFile :=
  match zipEntries with
  | [] => []
  | entry :: rest =>
      if negb (isDirectory entry) && isSafeFile (entryName entry)
      then {| filepath := entryName entry;
              content := toBase64 (getData entry);
              isBuffer := false |} :: extractEntries rest
      else extractEntries rest
  end.

Definition hasIndex (files : list UploadFile) : bool :=
  existsb (λ f, String.eqb (Js.toLowerCase (filepath f)) "index.html") files.

(** The file set of an upload, or the response that rejects the upload. *)
Definition processUpload (fileName fileData : string)
  : Response + list UploadFile :=
  if Js.endsWith (Js.toLowerCase fileName) ".zip" then
    match openZip fileData with
    | inl msg => inl (serverError msg)
    | inr zipEntries =>
        let files := extractEntries zipEntries in
        if negb (hasIndex files)
        then inl (json 400 [("error", JStr "ZIP harus ada index.html")])
        else inr files
    end
  else if Js.endsWith (Js.toLowerCase fileName) ".html"
          || Js.endsWith (Js.toLowerCase fileName) ".htm" then
    inr [ {| filepath := "index.html"; content := fileData; isBuffer := false |} ]
  else inl (json 400 [("error", JStr "Hanya file .html/.htm atau .zip")]).

Definition vercelFiles (files : list UploadFile) : list (string * string) :=
  map (λ f, (filepath f, content f)) files.

(** The branch [name === 'quota-check']. *)
Definition quotaCheck (c : Clock) (req : Request) (s : Store)
  : Response * Store :=
  let clientId := getClientId req in
  let '(quotaInfo, s1) := getQuotaInfo (lookupNow c) (today c) clientId s in
  let q := deref s1 quotaInfo in
  let response := [("remainingQuota", JNum (remaining q))] in
  let response :=
    if cooldownUntil q >? checkNow c
    then response ++ [("cooldown", JBool true);
                      ("remainingSeconds",
                       JNum (ceilSeconds (cooldownUntil q - secondsNow c)))]
    else response in
  (json 200 response, s1).

(** The quota test and the processing of the upload, for a request whose
    fields are present and whose name is well formed. *)
Definition admission (w : World) (req : Request) (name fileData fileName : string)
    (s : Store) : Prepared * Store :=
  let c := clock w in
  let clientId := getClientId req in
  let '(quotaInfo, s1) := getQuotaInfo (lookupNow c) (today c) clientId s in
  let q := deref s1 quotaInfo in
  if cooldownUntil q >? checkNow c then
    (Reply (json 429 [("error", JStr "Cooldown aktif");
                      ("cooldown", JBool true);
                      ("remainingSeconds",
                       JNum (ceilSeconds (cooldownUntil q - secondsNow c)));
                      ("remainingQuota", JNum (remaining q))]), s1)
  else if remaining q <=? 0 then
    (Reply (json 429 [("error", JStr "Quota habis");
                      ("remainingQuota", JNum 0)]), s1)
  else
    match processUpload fileName fileData with
    | inl r => (Reply r, s1)
    | inr files =>
        if negb (truthy (vercelToken w)) then
          (Reply (json 500 [("error", JStr "Token Vercel tidak ditemukan")]), s1)
        else (Submit name (vercelFiles files) clientId quotaInfo, s1)
    end.

Definition prepare (w : World) (req : Request) (s : Store) : Prepared * Store :=
  if String.eqb (method req) "OPTIONS" then
    (Reply {| status := 200; body := None |}, s)
  else if negb (String.eqb (method req) "POST") then
    (Reply (json 405 [("error", JStr "Method not allowed")]), s)
  else if bool_decide (name req = Some "quota-check") then
    let '(r, s1) := quotaCheck (clock w) req s in (Reply r, s1)
  else
    match name req, fileData req, fileName req with
    | Some name, Some fileData, Some fileName =>
        if String.eqb name "" || String.eqb fileData "" || String.eqb fileName ""
        then (Reply (json 400 [("error", JStr "Data tidak lengkap")]), s)
        else if negb (validName name)
        then (Reply (json 400 [("error",
                 JStr "Nama hanya huruf kecil, angka, tanda hubung")]), s)
        else admission w req name fileData fileName s
    | _, _, _ => (Reply (json 400 [("error", JStr "Data tidak lengkap")]), s)
    end.

(** [quotaInfo.remaining--] *)
Definition decrement (d : QuotaInfo) : QuotaInfo :=
  set_remaining (remaining d - 1) d.

(** The test of the inner [catch]: the error code is [name_already_exists]
    or the lowered message includes [already exists]. *)
Definition nameTaken (e : option ApiError) : bool :=
  match e with
  | None => false
  | Some err =>
      bool_decide (code err = Some "name_already_exists")
      || match message err with
         | Some m => Js.includes (Js.toLowerCase m) "already exists"
         | None => false
         end
  end.

(** The part of the handler that follows the provider's answer. *)
Definition settle (c : Clock) (name clientId : string) (quotaInfo : ref)
    (o : Outcome) (s : Store) : Response * Store :=
  match o with
  | Resolved deployment =>
      let s1 := mutate decrement quotaInfo s in
      let s2 := mutate (set_lastDeployment (Some (deployedNow c))) quotaInfo s1 in
      let s3 := mutate (set_cooldownUntil (cooldownNow c + 5 * 60 * 1000))
                       quotaInfo s2 in
      let s4 := saveQuotaInfo clientId quotaInfo s3 in
      let url := if truthy (url deployment)
                 then "https://" +:+ orElse (url deployment) ""
                 else "https://" +:+ name +:+ ".vercel.app" in
      (json 200 ([("success", JBool true); ("url", JStr url)]
                 ++ match id deployment with
                    | Some i => [("deploymentId", JStr i)]
                    | None => []
                    end
                 ++ [("remainingQuota", JNum (remaining (deref s4 quotaInfo)))]),
       s4)
  | Rejected e =>
      if nameTaken e then
        let s1 := mutate decrement quotaInfo s in
        let s2 := saveQuotaInfo clientId quotaInfo s1 in
        (json 400 [("error", JStr "Nama sudah digunakan, coba nama lain");
                   ("remainingQuota", JNum (remaining (deref s2 quotaInfo)))],
         s2)
      else
        (json 500 [("error",
                    JStr (orElse (e ≫= message) "Deployment gagal"))], s)
  end.

Definition handler (w : World) (req : Request) (s : Store) : Response * Store :=
  match prepare w req s with
  | (Reply r, s1) => (r, s1)
  | (Submit name _ clientId quotaInfo, s1) =>
      settle (clock w) name clientId quotaInfo (vercel w) s1
  end.

(** Requests are served one after the other, each to its end (one request per
    invocation: no other request runs while the handler awaits the provider):
    the store they leave, and the responses they get. *)
Fixpoint serve (rs : list (World * Request)) (s : Store) : Store :=
  match rs with
  | [] => s
  | (w, req) :: rest => serve rest (snd (handler w req s))
  end.

Fixpoint replies (rs : list (World * Request)) (s : Store) : list Response :=
  match rs with
  | [] => []
  | (w, req) :: rest =>
      fst (handler w req s) :: replies rest (snd (handler w req s))
  end.

End Handler.

(** ** Vocabulary of the statements *)

(** [sub] occurs in [s]. *)
Definition contains (s sub : string) : Prop :=
  ∃ pre post, s = pre +:+ sub +:+ post.

(** Every reference of the map is allocated, and its object satisfies [P].
    JavaScript has no dangling reference: every store the program can be in
    satisfies [allocated]. *)
Definition holds (P : string → QuotaInfo → Prop) (s : Store) : Prop :=
  ∀ k l, deploymentData s !! k = Some l → ∃ d, heap s !! l = Some d ∧ P k d.

Definition allocated (s : Store) : Prop := holds (λ _ _, True) s.

(** The object after the charge of a successful deployment. *)
Definition charged (c : Clock) (d : QuotaInfo) : QuotaInfo :=
  {| remaining := remaining d - 1; lastReset := lastReset d;
     lastDeployment := Some (deployedNow c);
     cooldownUntil := cooldownNow c + 5 * 60 * 1000 |}.

(** The value of a field of the response, when it is a number. *)
Definition numberField (k : string) (r : Response) : option Z :=
  match field k r with
  | Some (JNum n) => Some n
  | _ => None
  end.

(** No two identifiers of the map share an object. *)
Definition separated (s : Store) : Prop :=
  ∀ k1 k2 l, deploymentData s !! k1 = Some l → deploymentData s !! k2 = Some l →
             k1 = k2.

(** What the sweep at [now] leaves of a record. *)
Definition swept (now : Z) (o : option QuotaInfo) : option QuotaInfo :=
  match o with
  | Some d => if expired now d then None else Some d
  | None => None
  end.

(** The request is turned away before the quota is looked up: its method is
    not POST, or it is no quota check and lacks a field or has an ill-formed
    name. *)
Definition turnedAway (req : Request) : Prop :=
  method req ≠ "POST" ∨
  (name req ≠ Some "quota-check" ∧
   (truthy (name req) = false ∨ truthy (fileData req) = false ∨
    truthy (fileName req) = false ∨
    ∃ nm, name req = Some nm ∧ validName nm = false)).

(** A deployment request: a POST with its three fields and a well-formed
    name that is not the name of the quota check. *)
Definition deployRequest (req : Request) (nm fd fn : string) : Prop :=
  method req = "POST" ∧
  name req = Some nm ∧ fileData req = Some fd ∧ fileName req = Some fn ∧
  nm ≠ "quota-check" ∧ validName nm = true ∧ fd ≠ "" ∧ fn ≠ "".

(** The response of a successful deployment. *)
Definition deployedOk (r : Response) : bool :=
  (status r =? 200) &&
  match field "success" r with
  | Some (JBool true) => true
  | _ => false
  end.

(** The shape of a response: one of five statuses, an error message unless
    the status is 200, the remaining quota when the status is 429. *)
Definition wellShaped (r : Response) : Prop :=
  status r ∈ [200; 400; 405; 429; 500] ∧
  (status r ≠ 200 → ∃ m, field "error" r = Some (JStr m)) ∧
  (status r = 429 → ∃ n, numberField "remainingQuota" r = Some n).

(** A clock of the calendar date [day], in the 24 hours that start at [T]:
    deployments are stamped [T] or later, lookups at most 24 hours after [T]. *)
Definition dayClock (day : string) (T : Z) (c : Clock) : Prop :=
  today c = day ∧ T ≤ deployedNow c ∧ lookupNow c ≤ T + 24 * 60 * 60 * 1000.

(** The bound that [n] deployments of the client on [day] put on its object. *)
Definition capped (clientId day : string) (T n : Z) (k : string) (d : QuotaInfo)
  : Prop :=
  k = clientId →
  remaining d ≤ 50 ∧
  (lastReset d = day → n + remaining d ≤ 50) ∧
  (0 < n → lastReset d = day ∧ ∃ t, lastDeployment d = Some t ∧ T ≤ t).

(** The state of the count: [n] deployments so far, and the client still in
    the map once it has deployed. *)
Definition counted (clientId day : string) (T n : Z) (s : Store) : Prop :=
  (0 < n → is_Some (deploymentData s !! clientId)) ∧
  holds (capped clientId day T n) s.

Section Counting.

Context {platform : Platform}.

(** The number of successful deployments of a client among the requests
    served. *)
Fixpoint deploymentsOf (clientId : string) (rs : list (World * Request))
    (s : Store) : nat :=
  match rs with
  | [] => 0%nat
  | (w, req) :: rest =>
      ((if String.eqb (getClientId req) clientId
           && deployedOk (fst (handler w req s)) then 1 else 0)
       + deploymentsOf clientId rest (snd (handler w req s)))%nat
  end.

End Counting.

(** ** A worked scenario

    One client, one small site, and two days of a UTC calendar.  The library
    functions are stand-ins: the digest is the identity (distinct inputs keep
    distinct identifiers), every archive opens to the same four entries, and
    the base64 text of a content is the content. *)

Module Scenario.

Definition archive : list ZipEntry :=
  [ {| entryName := "assets/"; isDirectory := true; getData := "" |};
    {| entryName := "index.html"; isDirectory := false; getData := "<html>" |};
    {| entryName := "a.exe"; isDirectory := false; getData := "MZ" |};
    {| entryName := "../../etc/passwd"; isDirectory := false; getData := "root" |} ].

Definition libraries : Platform :=
  {| md5hex := λ x, x; openZip := λ _, inr archive; toBase64 := λ x, x |}.

Definition monday : string := "Mon Nov 02 2026".
Definition tuesday : string := "Tue Nov 03 2026".

(** Milliseconds since the epoch. *)
Definition monday_12_00 : Z := 1793620800000.
Definition tuesday_11_00 : Z := 1793703600000.
Definition tuesday_13_00 : Z := 1793710800000.
Definition minute : Z := 60 * 1000.

(** A world whose clock reads [t] on [day] at every reading. *)
Definition world (t : Z) (day : string) (o : Outcome) : World :=
  {| clock := {| lookupNow := t; today := day; checkNow := t;
                 secondsNow := t; deployedNow := t; cooldownNow := t |};
     vercelToken := Some "token";
     vercel := o |}.

Definition post (n fd fn : option string) : Request :=
  {| method := "POST"; xForwardedFor := Some "203.0.113.7";
     remoteAddress := None; userAgent := Some "curl/8";
     name := n; fileData := fd; fileName := fn |}.

Definition deploy : Request :=
  post (Some "my-site") (Some "PGh0bWw+") (Some "page.htm").
Definition check : Request := post (Some "quota-check") None None.

Definition client : string := "203.0.113.7curl/8".

Definition deployed : Outcome :=
  Resolved {| url := Some "my-site.vercel.app"; id := Some "dpl_1" |}.
Definition taken : Outcome :=
  Rejected (Some {| code := Some "name_already_exists";
                    message := Some "Project already exists" |}).

(** One deployment on Monday at noon. *)
Definition mondayDeployment : list (World * Request) :=
  [ (world monday_12_00 monday deployed, deploy) ].

(** Then, six minutes later, a deployment refused because the name is
    taken. *)
Definition mondayRefusal : World * Request :=
  (world (monday_12_00 + 6 * minute) monday taken, deploy).

(** Or, on Tuesday at eleven, a deployment refused because the name is
    taken. *)
Definition tuesdayRefusal : list (World * Request) :=
  mondayDeployment ++ [ (world tuesday_11_00 tuesday taken, deploy) ].

(** Deployments on Monday, six minutes apart from noon on. *)
Definition deployments (n : nat) : list (World * Request) :=
  map (λ i, (world (monday_12_00 + Z.of_nat i * (6 * minute)) monday deployed,
             deploy))
      (seq 0 n).

Definition busyMonday : list (World * Request) := deployments 49.
Definition soldOutMonday : list (World * Request) := deployments 50.

(** Two quota checks, ten minutes apart, at a given time of a given day. *)
Definition twoChecks (t : Z) (day : string) : list (World * Request) :=
  [ (world t day deployed, check);
    (world (t + 10 * minute) day deployed, check) ].

(** An archive whose page sits in a folder, and a platform that opens every
    payload to it. *)
Definition nestedArchive : list ZipEntry :=
  [ {| entryName := "site/"; isDirectory := true; getData := "" |};
    {| entryName := "site/index.html"; isDirectory := false; getData := "<html>" |};
    {| entryName := "style.css"; isDirectory := false; getData := "body{}" |} ].

Definition librariesNested : Platform :=
  {| md5hex := λ x, x; openZip := λ _, inr nestedArchive; toBase64 := λ x, x |}.

(** Another client. *)
Definition otherDeploy : Request :=
  {| method := "POST"; xForwardedFor := Some "198.51.100.9";
     remoteAddress := None; userAgent := Some "firefox";
     name := Some "other-site"; fileData := Some "PGh0bWw+";
     fileName := Some "index.html" |}.
Definition otherClient : string := "198.51.100.9firefox".

(** A request whose name has a capital and a space. *)
Definition misnamed : Request :=
  post (Some "My Site") (Some "PGh0bWw+") (Some "page.htm").

(** The deployment of Monday noon, then, a minute later, one of the other
    client. *)
Definition twoClients : list (World * Request) :=
  mondayDeployment ++ [ (world (monday_12_00 + minute) monday deployed, otherDeploy) ].

(** A provider that is down. *)
Definition down : Outcome := Rejected None.

End Scenario.

(** * Facts about the string functions *)

Lemma append_cons (a : ascii) (s t : string) :
  String a s +:+ t = String a (s +:+ t).
Proof. reflexivity. Qed.

Lemma append_empty_r (s : string) : s +:+ "" = s.
Proof. induction s as [|a s IH]; [done|]. by rewrite append_cons, IH. Qed.

Lemma rev_app_rev_app (s t u : string) :
  String.rev_app (String.rev_app s t) u = String.rev_app t (s +:+ u).
Proof.
  revert t u. induction s as [|a s IH]; intros t u; [done|].
  cbn [String.rev_app]. by rewrite IH.
Qed.

Lemma rev_involutive (s : string) : String.rev (String.rev s) = s.
Proof. unfold String.rev. by rewrite rev_app_rev_app, append_empty_r. Qed.

Lemma startsWith_spec (s p : string) :
  Js.startsWith s p = true ↔ ∃ post, s = p +:+ post.
Proof.
  revert s. induction p as [|a p IH]; intros s.
  - split; [intros _; by exists s | by destruct s].
  - destruct s as [|b s]; cbn [Js.startsWith].
    + split; [done | by intros [post ?]].
    + rewrite andb_true_iff, Ascii.eqb_eq, IH. split.
      * intros [-> [post ->]]. by exists post.
      * intros [post H]. rewrite append_cons in H. injection H as -> ->. eauto.
Qed.

Lemma includes_spec (s sub : string) :
  Js.includes s sub = true ↔ contains s sub.
Proof.
  induction s as [|a s IH]; cbn [Js.includes];
    rewrite orb_true_iff, startsWith_spec.
  - split.
    + intros [[post H]|?]; [|done]. by exists "", post.
    + intros ([|b pre] & post & H); [left; by exists post | done].
  - rewrite IH. split.
    + intros [[post H]|(pre & post & ->)]; [by exists "", post|].
      by exists (String a pre), post.
    + intros ([|b pre] & post & H); [left; by exists post |].
      right. rewrite append_cons in H. injection H as -> ->.
      by exists pre, post.
Qed.

Lemma append_assoc (s t u : string) : (s +:+ t) +:+ u = s +:+ (t +:+ u).
Proof. induction s as [|a s IH]; [done|]. by rewrite !append_cons, IH. Qed.

Lemma rev_app_append (s t : string) : String.rev_app s t = String.rev s +:+ t.
Proof.
  rewrite <- (rev_involutive s) at 1. unfold String.rev at 1.
  by rewrite rev_app_rev_app.
Qed.

Lemma rev_append (s t : string) :
  String.rev (s +:+ t) = String.rev t +:+ String.rev s.
Proof.
  induction s as [|a s IH]; [by rewrite append_empty_r|].
  rewrite append_cons. unfold String.rev at 1 3. cbn [String.rev_app].
  by rewrite !rev_app_append, IH, append_assoc.
Qed.

Lemma endsWith_spec (s suf : string) :
  Js.endsWith s suf = true ↔ ∃ pre, s = pre +:+ suf.
Proof.
  unfold Js.endsWith. rewrite startsWith_spec. split.
  - intros [post H]. exists (String.rev post).
    apply (f_equal String.rev) in H.
    by rewrite rev_involutive, rev_append, rev_involutive in H.
  - intros [pre ->]. exists (String.rev pre). apply rev_append.
Qed.

(** A name that ends in [.html] or [.htm] does not end in [.zip]. *)
Lemma endsWith_html_not_zip (s : string) :
  Js.endsWith s ".html" = true ∨ Js.endsWith s ".htm" = true →
  Js.endsWith s ".zip" = false.
Proof.
  unfold Js.endsWith.
  change (String.rev ".html") with "lmth.".
  change (String.rev ".htm") with "mth.".
  change (String.rev ".zip") with "piz.".
  destruct (String.rev s) as [|c r]; [by intros [?|?]|].
  cbn [Js.startsWith].
  intros [H|H]; apply andb_true_iff in H as [H _];
    apply Ascii.eqb_eq in H; by subst c.
Qed.

(** * The safety filter *)

(** The portion [.htaccess] has no extension. *)
Lemma extname_htaccess (p : string) :
  Path.basename p = ".htaccess" → Path.extname p = "".
Proof.
  unfold Path.basename, Path.extname. intros H.
  apply (f_equal String.rev) in H. rewrite rev_involutive in H.
  by rewrite H.
Qed.

(** C1, as the code has it: every path whose base name starts with a dot is
    rejected, the base name [.htaccess] included.  [path.extname] gives the
    empty extension for a path whose base name is [.htaccess], and the test
    of the extension, which comes first, refuses it; the exception for
    [.htaccess] in the last test is never reached with that base name.  The
    claim says that [isSafeFile] returns true for these paths. *)
Theorem isSafeFile_dotfile_rejected (p : string) :
  Js.startsWith (Path.basename p) "." = true → isSafeFile p = false.
Proof.
  intros H. unfold isSafeFile.
  destruct (String.eqb_spec (Path.basename p) ".htaccess") as [E|E].
  - by rewrite (extname_htaccess p E).
  - rewrite H. destruct (negb _); [done|]. by destruct (_ || _).
Qed.

Lemma isSafeFile_dotfile_rejected_witness :
  Path.basename ".htaccess" = ".htaccess" ∧ Path.extname ".htaccess" = "" ∧
  isSafeFile ".htaccess" = false.
Proof.
  split; [reflexivity|]. split; [reflexivity|].
  apply (isSafeFile_dotfile_rejected ".htaccess"). reflexivity.
Defined.

(** C10: a path in which two dots stand side by side is rejected, wherever
    they stand; so is the file [a..b.css], whose extension is allowed and
    which has no parent-directory segment. *)
Theorem isSafeFile_rejects_double_dot (p : string) :
  contains p ".." → isSafeFile p = false.
Proof.
  intros H%includes_spec. unfold isSafeFile. rewrite H.
  by destruct (negb _).
Qed.

Lemma isSafeFile_rejects_double_dot_witness :
  contains "a..b.css" ".." ∧
  Js.arrayIncludes safeExtensions (Js.toLowerCase (Path.extname "a..b.css")) = true ∧
  isSafeFile "a..b.css" = false.
Proof.
  assert (H : contains "a..b.css" "..") by (by exists "a", "b.css").
  split; [exact H|]. split; [reflexivity|].
  exact (isSafeFile_rejects_double_dot "a..b.css" H).
Defined.

(** * The upload processor *)

Section Upload.

Context {platform : Platform}.

(** The paths that come out of the loop are the names of the entries that
    are no directories, passed through the filter, in their order. *)
Lemma extractEntries_filepaths (zipEntries : list ZipEntry) :
  map filepath (extractEntries zipEntries) =
  filter (λ p, isSafeFile p = true)
    (map entryName (filter (λ e, isDirectory e = false) zipEntries)).
Proof.
  induction zipEntries as [|e es IH]; [done|].
  cbn [extractEntries]. rewrite filter_cons.
  destruct (isDirectory e) eqn:Hd; cbn [negb andb].
  - by rewrite decide_False.
  - rewrite decide_True by done. cbn [map]. rewrite filter_cons.
    destruct (isSafeFile (entryName e)) eqn:Hs.
    + rewrite decide_True by done. cbn [map filepath]. by rewrite IH.
    + by rewrite decide_False.
Qed.

Lemma hasIndex_filepaths (files : list UploadFile) :
  hasIndex files =
  existsb (λ p, String.eqb (Js.toLowerCase p) "index.html") (map filepath files).
Proof. unfold hasIndex. induction files as [|f fs IH]; [done|]. cbn. by rewrite IH. Qed.

(** The files of the loop are the entries that are no directories and pass
    the filter. *)
Lemma extractEntries_elem (zipEntries : list ZipEntry) (f : UploadFile) :
  f ∈ extractEntries zipEntries ↔
  ∃ entry, entry ∈ zipEntries ∧ isDirectory entry = false ∧
           isSafeFile (entryName entry) = true ∧
           f = {| filepath := entryName entry;
                  content := toBase64 (getData entry);
                  isBuffer := false |}.
Proof.
  induction zipEntries as [|e es IH].
  - cbn. split; [by intros ?%elem_of_nil|]. by intros (? & ?%elem_of_nil & _).
  - cbn [extractEntries].
    destruct (isDirectory e) eqn:Hd; cbn [negb andb];
      [|destruct (isSafeFile (entryName e)) eqn:Hs];
      rewrite ?elem_of_cons, IH; split.
    + intros (x & Hx & ?). exists x. by rewrite elem_of_cons; auto.
    + intros (x & [->|Hx]%elem_of_cons & Hdx & ?); [congruence|]. by exists x.
    + intros [->|(x & Hx & ?)]; [exists e|exists x]; by rewrite elem_of_cons; auto.
    + intros (x & [->|Hx]%elem_of_cons & Hdx & Hsx & ->); [by left|].
      right. by exists x.
    + intros (x & Hx & ?). exists x. by rewrite elem_of_cons; auto.
    + intros (x & [->|Hx]%elem_of_cons & Hdx & Hsx & ?); [congruence|]. by exists x.
Qed.

Lemma hasIndex_elem (files : list UploadFile) :
  hasIndex files = true ↔
  ∃ f, f ∈ files ∧ Js.toLowerCase (filepath f) = "index.html".
Proof.
  unfold hasIndex. rewrite existsb_exists. split.
  - intros (f & Hf%list_elem_of_In & E%String.eqb_eq). by exists f.
  - intros (f & Hf%list_elem_of_In & E%String.eqb_eq). by exists f.
Qed.

(** C7: for an archive whose entries that are no directories are named
    index.html, a.exe and ../../etc/passwd (in any order, among any
    directories), the filter passes the first name and fails the two
    others; the loop yields one file, made of the entry named index.html:
    its name as the path, its data in base64 as the content; every other
    entry that is no directory fails the filter; and the upload goes
    through with that one file, no response rejecting it. *)
Theorem archive_keeps_index_only (zipEntries : list ZipEntry) :
  map entryName (filter (λ e, isDirectory e = false) zipEntries)
    ≡ₚ ["index.html"; "a.exe"; "../../etc/passwd"] →
  isSafeFile "index.html" = true ∧
  isSafeFile "a.exe" = false ∧
  isSafeFile "../../etc/passwd" = false ∧
  ∃ entry, entry ∈ zipEntries ∧ isDirectory entry = false ∧
    entryName entry = "index.html" ∧
    let kept := [ {| filepath := "index.html";
                     content := toBase64 (getData entry);
                     isBuffer := false |} ] in
    extractEntries zipEntries = kept ∧
    (∀ e, e ∈ zipEntries → isDirectory e = false →
          entryName e ≠ "index.html" → isSafeFile (entryName e) = false) ∧
    ∀ fileName fileData,
      Js.endsWith (Js.toLowerCase fileName) ".zip" = true →
      openZip fileData = inr zipEntries →
      processUpload fileName fileData = inr kept.
Proof.
  intros Hperm.
  assert (Hexe : isSafeFile "a.exe" = false) by reflexivity.
  assert (Hpasswd : isSafeFile "../../etc/passwd" = false) by reflexivity.
  do 3 (split; [done|]).
  assert (Hpaths : map filepath (extractEntries zipEntries) = ["index.html"]).
  { rewrite extractEntries_filepaths. apply Permutation_singleton_r.
    by rewrite Hperm. }
  destruct (extractEntries zipEntries) as [|f [|g fs]] eqn:Hfiles; try done.
  injection Hpaths as Hpath.
  assert (Hf : f ∈ extractEntries zipEntries).
  { rewrite Hfiles. apply list_elem_of_here. }
  apply extractEntries_elem in Hf as (entry & Hin & Hdir & _ & ->).
  cbn [filepath] in Hpath. exists entry. rewrite Hpath in Hfiles |- *.
  do 3 (split; [done|]). cbn zeta. split; [done|]. split.
  - intros e He Hd Hne.
    assert (Hname : entryName e ∈ ["index.html"; "a.exe"; "../../etc/passwd"]).
    { rewrite <- Hperm. apply list_elem_of_fmap. exists e. split; [done|].
      by apply list_elem_of_filter. }
    rewrite !elem_of_cons in Hname.
    destruct Hname as [?|[->|[->|?%elem_of_nil]]]; done.
  - intros fileName fileData Hzip Hopen. unfold processUpload.
    by rewrite Hzip, Hopen, Hfiles.
Qed.

(** The branch of a single HTML file. *)
Lemma processUpload_html (fileName fileData : string) :
  Js.endsWith (Js.toLowerCase fileName) ".html" = true
  ∨ Js.endsWith (Js.toLowerCase fileName) ".htm" = true →
  processUpload fileName fileData
  = inr [ {| filepath := "index.html"; content := fileData; isBuffer := false |} ].
Proof.
  intros H. unfold processUpload.
  rewrite (endsWith_html_not_zip _ H).
  by destruct H as [-> | ->]; [|rewrite orb_true_r].
Qed.

(** A submission comes out of [admission]. *)
Lemma prepare_Submit (w : World) (req : Request) (s s1 : Store)
    (nm clientId : string) (files : list (string * string)) (q : ref) :
  prepare w req s = (Submit nm files clientId q, s1) →
  ∃ fd fn,
    name req = Some nm ∧ fileData req = Some fd ∧ fileName req = Some fn ∧
    admission w req nm fd fn s = (Submit nm files clientId q, s1).
Proof.
  unfold prepare.
  destruct (String.eqb (method req) "OPTIONS"); [done|].
  destruct (negb (String.eqb (method req) "POST")); [done|].
  case_bool_decide.
  { by destruct (quotaCheck _ _ _). }
  destruct (name req) as [n|]; [|done].
  destruct (fileData req) as [fd|]; [|done].
  destruct (fileName req) as [fn|]; [|done].
  destruct (_ || _); [done|].
  destruct (negb (validName n)); [done|].
  intros Hadm. exists fd, fn.
  assert (n = nm) as ->; [|done].
  unfold admission in Hadm. destruct (getQuotaInfo _ _ _ _) as [q' s'].
  destruct (_ >? _); [done|]. destruct (_ <=? _); [done|].
  destruct (processUpload _ _); [done|].
  destruct (negb _); [done|]. by injection Hadm.
Qed.

(** What a submission tells about [admission]: the quota lookup it made, the
    two tests it passed and the file set it built. *)
Lemma admission_Submit (w : World) (req : Request) (s s1 : Store)
    (nm fd fn clientId : string) (files : list (string * string)) (q : ref) :
  admission w req nm fd fn s = (Submit nm files clientId q, s1) →
  clientId = getClientId req ∧
  getQuotaInfo (lookupNow (clock w)) (today (clock w)) clientId s = (q, s1) ∧
  cooldownUntil (deref s1 q) ≤ checkNow (clock w) ∧
  0 < remaining (deref s1 q) ∧
  ∃ fs, processUpload fn fd = inr fs ∧ files = vercelFiles fs.
Proof.
  unfold admission. destruct (getQuotaInfo _ _ _ _) as [q' s'] eqn:Hq.
  destruct (_ >? _) eqn:Hc; [done|]. destruct (_ <=? _) eqn:Hr; [done|].
  destruct (processUpload _ _) as [|fs] eqn:Hp; [done|].
  destruct (negb _); [done|]. intros H. injection H as <- <- <- <-.
  repeat split; [done|lia|lia|by exists fs].
Qed.

(** C6: an upload whose file name ends, in any case of letters, in .html or
    .htm yields exactly one file, with path index.html and with the payload
    itself as content; and when such an upload is admitted and submitted,
    the provider receives that one file, the payload unchanged. *)
Theorem html_upload_single_file (fn fd : string) :
  Js.endsWith (Js.toLowerCase fn) ".html" = true
  ∨ Js.endsWith (Js.toLowerCase fn) ".htm" = true →
  processUpload fn fd
  = inr [ {| filepath := "index.html"; content := fd; isBuffer := false |} ]
  ∧ ∀ w req s s1 nm files clientId q,
      fileName req = Some fn →
      fileData req = Some fd →
      prepare w req s = (Submit nm files clientId q, s1) →
      files = [("index.html", fd)].
Proof.
  intros H. split; [by apply processUpload_html|].
  intros w req s s1 nm files clientId q Hfn Hfd Hprep.
  apply prepare_Submit in Hprep as (fd' & fn' & _ & Efd & Efn & Hadm).
  apply admission_Submit in Hadm as (_ & _ & _ & _ & fs & Hfs & ->).
  rewrite Efn in Hfn. rewrite Efd in Hfd.
  injection Hfn as ->. injection Hfd as ->.
  rewrite (processUpload_html _ _ H) in Hfs. by injection Hfs as <-.
Qed.

End Upload.

(** * The quota store *)

Section Holds.
Variable P : string → QuotaInfo → Prop.

Lemma holds_allocated (s : Store) : holds P s → allocated s.
Proof. intros H k l Hk. destruct (H k l Hk) as (d & ? & _). eauto. Qed.

Lemma holds_ensure (today clientId : string) (s : Store) :
  holds P s → P clientId (newQuota today) → holds P (ensure today clientId s).
Proof.
  intros H Hnew. unfold ensure.
  destruct (deploymentData s !! clientId) eqn:E; [done|].
  intros k l. cbn. rewrite lookup_insert. case_decide as Hk.
  - intros [= <-]. subst k. exists (newQuota today).
    by rewrite lookup_app_r, Nat.sub_diag.
  - intros Hl. destruct (H k l Hl) as (d & Hd & HP). exists d.
    split; [|done]. by apply lookup_app_l_Some.
Qed.

Lemma holds_mutate (f : QuotaInfo → QuotaInfo) (q : ref) (s : Store) :
  holds P s →
  (∀ k d, deploymentData s !! k = Some q → heap s !! q = Some d → P k d → P k (f d)) →
  holds P (mutate f q s).
Proof.
  intros H Hf k l Hl. cbn [mutate deploymentData] in Hl.
  destruct (H k l Hl) as (d & Hd & HP). cbn [mutate heap].
  destruct (decide (l = q)) as [->|Hne].
  - exists (f d). rewrite list_lookup_alter_eq, Hd. split; [done|]. by apply Hf.
  - exists d. by rewrite list_lookup_alter_ne.
Qed.

Lemma holds_cleanup (now : Z) (s : Store) : holds P s → holds P (cleanup now s).
Proof.
  intros H k l Hl. cbn in Hl. apply map_lookup_filter_Some in Hl as [Hl _].
  exact (H k l Hl).
Qed.

Lemma holds_save (clientId : string) (q : ref) (s : Store) :
  holds P s → (∃ d, heap s !! q = Some d ∧ P clientId d) →
  holds P (saveQuotaInfo clientId q s).
Proof.
  intros H Hq k l. cbn. rewrite lookup_insert. case_decide as Hk.
  - intros [= <-]. by subst k.
  - apply H.
Qed.
End Holds.

Lemma lastReset_rollover (today : string) (d : QuotaInfo) :
  lastReset (rollover today d) = today.
Proof.
  unfold rollover. destruct (String.eqb_spec (lastReset d) today); done.
Qed.

Lemma rollover_same_day (today : string) (d : QuotaInfo) :
  lastReset d = today → rollover today d = d.
Proof. intros <-. unfold rollover. by rewrite String.eqb_refl. Qed.

Lemma rollover_new_day (today : string) (d : QuotaInfo) :
  lastReset d ≠ today →
  rollover today d =
  {| remaining := 50; lastReset := today;
     lastDeployment := lastDeployment d; cooldownUntil := 0 |}.
Proof.
  intros H. unfold rollover.
  by destruct (String.eqb_spec (lastReset d) today).
Qed.

(** The reference that [ensure] leaves under the identifier, and its object. *)
Lemma ensure_lookup (today clientId : string) (s : Store) :
  allocated s →
  ∃ q d, deploymentData (ensure today clientId s) !! clientId = Some q
       ∧ heap (ensure today clientId s) !! q = Some d
       ∧ d = default (newQuota today) (record s clientId).
Proof.
  intros Hs. unfold ensure, record.
  destruct (deploymentData s !! clientId) as [l|] eqn:E.
  - destruct (Hs _ _ E) as (d & Hd & _). exists l, d. by rewrite Hd.
  - exists (length (heap s)), (newQuota today). cbn [deploymentData heap].
    rewrite lookup_insert_eq, lookup_app_r, Nat.sub_diag by done. done.
Qed.

(** [getQuotaInfo] in one piece: the reference it returns, the object behind
    it, and what the sweep leaves in the map. *)
Lemma getQuotaInfo_data (now : Z) (today clientId : string) (s s1 : Store) (q : ref) :
  allocated s →
  getQuotaInfo now today clientId s = (q, s1) →
  let d := rollover today (default (newQuota today) (record s clientId)) in
  heap s1 !! q = Some d ∧ deref s1 q = d ∧
  deploymentData s1 !! clientId = (if expired now d then None else Some q).
Proof.
  intros Hs Hget d. unfold getQuotaInfo in Hget.
  destruct (ensure_lookup today clientId s Hs) as (l & d0 & Hl & Hd0 & Ed0).
  rewrite (lookup_total_correct _ _ _ Hl) in Hget.
  injection Hget as <- <-.
  assert (Hq : alter (rollover today) l (heap (ensure today clientId s)) !! l = Some d).
  { rewrite list_lookup_alter_eq, Hd0. cbn. by rewrite Ed0. }
  cbn [cleanup mutate heap deploymentData].
  split; [done|]. split; [by apply list_lookup_total_correct|].
  destruct (expired now d) eqn:Hexp.
  - apply map_lookup_filter_None. right. intros l' Hl'.
    rewrite Hl in Hl'. injection Hl' as <-. cbn [snd].
    rewrite (list_lookup_total_correct _ _ _ Hq). by rewrite Hexp.
  - apply map_lookup_filter_Some. split; [done|]. cbn [snd].
    by rewrite (list_lookup_total_correct _ _ _ Hq).
Qed.

Lemma getQuotaInfo_holds (P : string → QuotaInfo → Prop)
    (now : Z) (today clientId : string) (s s1 : Store) (q : ref) :
  holds P s →
  P clientId (newQuota today) →
  (∀ k d, P k d → P k (rollover today d)) →
  getQuotaInfo now today clientId s = (q, s1) →
  holds P s1 ∧ ∃ d, heap s1 !! q = Some d ∧ P clientId d ∧ lastReset d = today.
Proof.
  intros Hs Hnew Hroll Hget.
  pose proof (getQuotaInfo_data now today clientId s s1 q
                (holds_allocated P s Hs) Hget) as (Hq & _ & _).
  unfold getQuotaInfo in Hget. injection Hget as Eq <-.
  split.
  - apply holds_cleanup, holds_mutate; [by apply holds_ensure|].
    intros k d _ _. apply Hroll.
  - eexists. split; [exact Hq|]. split; [|apply lastReset_rollover].
    apply Hroll. unfold record.
    destruct (deploymentData s !! clientId) as [l|] eqn:E; [|done].
    destruct (Hs _ _ E) as (d & Hd & HP). by rewrite Hd.
Qed.

Lemma record_save_mutate (f : QuotaInfo → QuotaInfo) (clientId : string)
    (q : ref) (d : QuotaInfo) (s : Store) :
  heap s !! q = Some d →
  record (saveQuotaInfo clientId q (mutate f q s)) clientId = Some (f d).
Proof.
  intros Hd. unfold record, saveQuotaInfo, mutate. cbn [deploymentData heap].
  by rewrite lookup_insert_eq, list_lookup_alter_eq, Hd.
Qed.

Lemma mutate_mutate (f g : QuotaInfo → QuotaInfo) (q : ref) (s : Store) :
  mutate g q (mutate f q s) = mutate (g ∘ f) q s.
Proof. unfold mutate. cbn [heap deploymentData]. by rewrite list_alter_alter_eq. Qed.

Lemma holds_charge (P : string → QuotaInfo → Prop) (f : QuotaInfo → QuotaInfo)
    (clientId : string) (q : ref) (d : QuotaInfo) (s : Store) :
  holds P s → heap s !! q = Some d → P clientId d →
  (∀ k, P k d → P k (f d)) →
  holds P (saveQuotaInfo clientId q (mutate f q s)).
Proof.
  intros Hs Hd HP Hf. apply holds_save.
  - apply holds_mutate; [done|]. intros k d' _ Hd'.
    rewrite Hd in Hd'. injection Hd' as <-. apply Hf.
  - exists (f d). split; [|by apply Hf].
    unfold mutate. cbn [heap]. by rewrite list_lookup_alter_eq, Hd.
Qed.

Section Settle.
Variable c : Clock.
Variables (nm clientId : string) (q : ref) (d : QuotaInfo) (s : Store).
Hypothesis Hd : heap s !! q = Some d.

Lemma settle_Resolved_store (dep : Deployment) :
  snd (settle c nm clientId q (Resolved dep) s)
  = saveQuotaInfo clientId q (mutate (λ x, charged c x) q s).
Proof.
  cbn [settle snd]. rewrite !mutate_mutate. done.
Qed.

Lemma settle_Resolved (dep : Deployment) :
  let '(r, s') := settle c nm clientId q (Resolved dep) s in
  status r = 200 ∧ numberField "remainingQuota" r = Some (remaining d - 1) ∧
  record s' clientId = Some (charged c d).
Proof.
  destruct (settle _ _ _ _ _ _) as [r s'] eqn:E.
  pose proof (settle_Resolved_store dep) as Hs. rewrite E in Hs. cbn [snd] in Hs.
  cbn [settle] in E. injection E as <- _. subst s'.
  split; [done|]. split; [|by apply record_save_mutate].
  rewrite !mutate_mutate. unfold deref, saveQuotaInfo, mutate. cbn [heap].
  erewrite list_lookup_total_correct; [|by rewrite list_lookup_alter_eq, Hd].
  unfold numberField, field. cbn. by destruct (id dep).
Qed.

Lemma settle_taken (e : option ApiError) :
  nameTaken e = true →
  let '(r, s') := settle c nm clientId q (Rejected e) s in
  status r = 400 ∧ numberField "remainingQuota" r = Some (remaining d - 1) ∧
  s' = saveQuotaInfo clientId q (mutate decrement q s) ∧
  record s' clientId = Some (decrement d).
Proof.
  intros He. cbn [settle]. rewrite He.
  split; [done|]. split; [|split; [done|by apply record_save_mutate]].
  unfold deref, saveQuotaInfo, mutate. cbn [heap].
  erewrite list_lookup_total_correct; [|by rewrite list_lookup_alter_eq, Hd].
  done.
Qed.

Lemma settle_failed (e : option ApiError) :
  nameTaken e = false →
  let '(r, s') := settle c nm clientId q (Rejected e) s in
  status r = 500 ∧ s' = s.
Proof. intros He. cbn [settle]. by rewrite He. Qed.
End Settle.

Section HandlerFacts.

Context {platform : Platform}.

Lemma quotaCheck_lookup (c : Clock) (req : Request) (s : Store) :
  ∃ q s1,
    getQuotaInfo (lookupNow c) (today c) (getClientId req) s = (q, s1) ∧
    snd (quotaCheck c req s) = s1 ∧
    status (fst (quotaCheck c req s)) = 200 ∧
    numberField "remainingQuota" (fst (quotaCheck c req s))
    = Some (remaining (deref s1 q)).
Proof.
  unfold quotaCheck.
  destruct (getQuotaInfo _ _ _ _) as [q s1]. exists q, s1.
  split; [done|]. split; [done|]. split; [done|].
  by destruct (_ >? _).
Qed.

(** [prepare] leaves the store as it is, or as the quota lookup of the
    client left it. *)
Lemma prepare_store (w : World) (req : Request) (s s1 : Store) (pr : Prepared) :
  prepare w req s = (pr, s1) →
  s1 = s ∨
  ∃ q, getQuotaInfo (lookupNow (clock w)) (today (clock w)) (getClientId req) s
       = (q, s1).
Proof.
  unfold prepare.
  destruct (String.eqb (method req) "OPTIONS"); [intros [= _ <-]; by left|].
  destruct (negb (String.eqb (method req) "POST")); [intros [= _ <-]; by left|].
  case_bool_decide.
  { destruct (quotaCheck_lookup (clock w) req s) as (q & s' & Hq & Hs & _).
    destruct (quotaCheck _ _ _) as [r s'']. cbn [snd] in Hs. subst s''.
    intros [= _ <-]. right. by exists q. }
  destruct (name req) as [n|]; [|intros [= _ <-]; by left].
  destruct (fileData req) as [fd|]; [|intros [= _ <-]; by left].
  destruct (fileName req) as [fn|]; [|intros [= _ <-]; by left].
  destruct (_ || _); [intros [= _ <-]; by left|].
  destruct (negb (validName n)); [intros [= _ <-]; by left|].
  unfold admission. destruct (getQuotaInfo _ _ _ _) as [q s'] eqn:Hq.
  intros Hadm. right. exists q.
  destruct (_ >? _); [by injection Hadm as _ <-|].
  destruct (_ <=? _); [by injection Hadm as _ <-|].
  destruct (processUpload _ _); [by injection Hadm as _ <-|].
  destruct (negb _); by injection Hadm as _ <-.
Qed.

(** A property of the objects of the map that new objects have, that the
    rollover keeps and that the two charges keep on an object dated today
    with quota left, holds after a request if it held before. *)
Lemma handler_holds (P : string → QuotaInfo → Prop) (w : World) (req : Request)
    (s : Store) :
  (∀ k, P k (newQuota (today (clock w)))) →
  (∀ k d, P k d → P k (rollover (today (clock w)) d)) →
  (∀ k d, P k d → lastReset d = today (clock w) → 0 < remaining d →
          P k (decrement d) ∧ P k (charged (clock w) d)) →
  holds P s → holds P (snd (handler w req s)).
Proof.
  intros Hnew Hroll Hcharge Hs. unfold handler.
  destruct (prepare w req s) as [pr s1] eqn:Hp.
  assert (Hs1 : holds P s1).
  { destruct (prepare_store _ _ _ _ _ Hp) as [->|[q Hq]]; [done|].
    by destruct (getQuotaInfo_holds P _ _ _ _ _ _ Hs (Hnew _) Hroll Hq). }
  destruct pr as [r|nm fs cid q]; [done|].
  apply prepare_Submit in Hp as (fd & fn & _ & _ & _ & Hadm).
  apply admission_Submit in Hadm as (-> & Hq & _ & Hrem & _).
  destruct (getQuotaInfo_holds P _ _ _ _ _ _ Hs (Hnew _) Hroll Hq)
    as (_ & d & Hd & HP & Hday).
  unfold deref in Hrem. rewrite (list_lookup_total_correct _ _ _ Hd) in Hrem.
  destruct (vercel w) as [dep|e].
  - rewrite (settle_Resolved_store). apply (holds_charge P _ _ _ d); try done.
    intros k Hk. by apply Hcharge.
  - cbn [settle]. destruct (nameTaken e); [|done]. cbn [snd].
    apply (holds_charge P _ _ _ d); try done.
    intros k Hk. by apply Hcharge.
Qed.

Lemma serve_holds (P : string → QuotaInfo → Prop) (rs : list (World * Request))
    (s : Store) :
  Forall (λ wr,
    (∀ k, P k (newQuota (today (clock wr.1)))) ∧
    (∀ k d, P k d → P k (rollover (today (clock wr.1)) d)) ∧
    (∀ k d, P k d → lastReset d = today (clock wr.1) → 0 < remaining d →
            P k (decrement d) ∧ P k (charged (clock wr.1) d))) rs →
  holds P s → holds P (serve rs s).
Proof.
  intros Hrs. revert s. induction Hrs as [|[w req] rs (H1 & H2 & H3) _ IH];
    intros s Hs; [done|].
  cbn [serve]. apply IH. by apply handler_holds.
Qed.

Lemma holds_emptyStore (P : string → QuotaInfo → Prop) : holds P emptyStore.
Proof. intros k l. cbn. by rewrite lookup_empty. Qed.

(** C2: in every store that a sequence of requests, each served to its
    end, builds from the empty store of a fresh process, the field
    remaining of the object of every client lies between 0 and 50.  The
    requests, the clocks and the answers of the provider are arbitrary:
    lookups, date rollovers, admission tests and both charges are all among
    the steps. *)
Theorem remaining_in_range (rs : list (World * Request)) (clientId : string)
    (d : QuotaInfo) :
  record (serve rs emptyStore) clientId = Some d →
  0 ≤ remaining d ≤ 50.
Proof.
  intros Hrec.
  assert (H : holds (λ _ d, 0 ≤ remaining d ≤ 50) (serve rs emptyStore)).
  { apply serve_holds; [|apply holds_emptyStore].
    apply Forall_forall. intros [w req] _. cbn [fst]. split; [|split].
    - intros _. cbn. lia.
    - intros _ d' Hd'. unfold rollover. destruct (String.eqb _ _); cbn; lia.
    - intros _ d' Hd' _ Hpos. cbn. lia. }
  unfold record in Hrec.
  destruct (deploymentData _ !! clientId) as [l|] eqn:E; [|done].
  destruct (H _ _ E) as (d' & Hd' & Hr). rewrite Hd' in Hrec.
  by injection Hrec as <-.
Qed.

End HandlerFacts.

(** * Admission and charges *)

Section Admission.

Context {platform : Platform}.

Lemma serve_allocated (rs : list (World * Request)) :
  allocated (serve rs emptyStore).
Proof.
  apply serve_holds; [|apply holds_emptyStore].
  apply Forall_forall. by intros [w req] _.
Qed.

(** What a submission tells about the object that the handler holds. *)
Lemma submitted_object (w : World) (req : Request) (s s1 : Store)
    (nm clientId : string) (files : list (string * string)) (q : ref) :
  allocated s →
  prepare w req s = (Submit nm files clientId q, s1) →
  clientId = getClientId req ∧
  heap s1 !! q = Some (deref s1 q) ∧
  deref s1 q = rollover (today (clock w))
                 (default (newQuota (today (clock w))) (record s clientId)) ∧
  cooldownUntil (deref s1 q) ≤ checkNow (clock w) ∧
  0 < remaining (deref s1 q).
Proof.
  intros Hs Hp.
  apply prepare_Submit in Hp as (fd & fn & _ & _ & _ & Hadm).
  apply admission_Submit in Hadm as (Hid & Hq & Hcool & Hrem & _).
  destruct (getQuotaInfo_data _ _ _ _ _ _ Hs Hq) as (Hd & Hderef & _).
  rewrite Hderef. by rewrite Hderef in Hcool, Hrem.
Qed.

(** C3: a POST request with its three fields and a well-formed name, from a
    client whose record, as the quota lookup of the request returns it, has
    remaining equal to 0, gets the status 429 and a body whose
    remainingQuota is 0, whatever cooldownUntil and the clock are: with a
    cooldown running the cooldown response reports the 0 of the record,
    without one the quota response reports 0. *)
Theorem exhausted_quota_rejected (w : World) (req : Request) (s s1 : Store)
    (nm fd fn : string) (q : ref) :
  method req = "POST" →
  name req = Some nm → fileData req = Some fd → fileName req = Some fn →
  nm ≠ "quota-check" → validName nm = true → fd ≠ "" → fn ≠ "" →
  getQuotaInfo (lookupNow (clock w)) (today (clock w)) (getClientId req) s
  = (q, s1) →
  remaining (deref s1 q) = 0 →
  status (fst (handler w req s)) = 429 ∧
  numberField "remainingQuota" (fst (handler w req s)) = Some 0.
Proof.
  intros Hm Hn Hfd Hfn Hqc Hvalid Hfd' Hfn' Hq Hrem.
  unfold handler, prepare. rewrite Hm, Hn, Hfd, Hfn. cbn [String.eqb negb].
  change (String.eqb "POST" "OPTIONS") with false.
  change (String.eqb "POST" "POST") with true. cbn [negb].
  rewrite bool_decide_eq_false_2 by congruence.
  assert (String.eqb nm "" = false) as ->.
  { apply String.eqb_neq. intros ->. by cbn in Hvalid. }
  apply String.eqb_neq in Hfd' as ->. apply String.eqb_neq in Hfn' as ->.
  cbn [orb]. rewrite Hvalid. cbn [negb].
  unfold admission. rewrite Hq, Hrem.
  by destruct (cooldownUntil (deref s1 q) >? checkNow (clock w)).
Qed.

(** The inner [catch] recognises the two forms of the error. *)
Lemma nameTaken_spec (err : ApiError) :
  code err = Some "name_already_exists"
  ∨ (∃ m, message err = Some m ∧ contains (Js.toLowerCase m) "already exists") →
  nameTaken (Some err) = true.
Proof.
  intros [H|(m & Hm & Hc)]; unfold nameTaken.
  - by rewrite bool_decide_eq_true_2.
  - rewrite Hm. apply includes_spec in Hc as ->. apply orb_true_r.
Qed.

(** C4, amended: when an admitted request is answered by the provider with
    an error whose code is name_already_exists, or whose message, in small
    letters, contains "already exists", the response has status 400 and
    reports the new remaining, and the record of the client after the
    request is the record its quota lookup returned with remaining one
    less, cooldownUntil, lastDeployment and lastReset as returned.  The
    lookup returns the record stored before the request when that record
    is dated today: then remaining is one less than the value before the
    request and cooldownUntil is not modified.  When no record was stored,
    or one dated another day, the lookup returns remaining 50 and
    cooldownUntil 0: then remaining is 49 and cooldownUntil is 0 after the
    request. *)
Theorem name_taken_charges_one (w : World) (req : Request) (s s1 : Store)
    (nm clientId : string) (files : list (string * string)) (q : ref)
    (err : ApiError) :
  allocated s →
  prepare w req s = (Submit nm files clientId q, s1) →
  vercel w = Rejected (Some err) →
  code err = Some "name_already_exists"
  ∨ (∃ m, message err = Some m ∧ contains (Js.toLowerCase m) "already exists") →
  let looked := rollover (today (clock w))
                  (default (newQuota (today (clock w))) (record s clientId)) in
  clientId = getClientId req ∧
  status (fst (handler w req s)) = 400 ∧
  numberField "remainingQuota" (fst (handler w req s))
  = Some (remaining looked - 1) ∧
  record (snd (handler w req s)) clientId
  = Some {| remaining := remaining looked - 1; lastReset := lastReset looked;
            lastDeployment := lastDeployment looked;
            cooldownUntil := cooldownUntil looked |} ∧
  (∀ d0, record s clientId = Some d0 → lastReset d0 = today (clock w) →
     looked = d0) ∧
  (record s clientId = None
   ∨ (∃ d0, record s clientId = Some d0 ∧ lastReset d0 ≠ today (clock w)) →
   remaining looked = 50 ∧ cooldownUntil looked = 0).
Proof.
  intros Hs Hp Hv Herr looked.
  destruct (submitted_object _ _ _ _ _ _ _ _ Hs Hp) as (Hid & Hd & Hview & _ & _).
  fold looked in Hview.
  split; [exact Hid|].
  unfold handler. rewrite Hp, Hv.
  pose proof (settle_taken (clock w) nm clientId q (deref s1 q) s1 Hd (Some err)
                (nameTaken_spec err Herr)) as Hsettle.
  destruct (settle _ _ _ _ _ _) as [r s']. cbn [fst snd].
  destruct Hsettle as (Hst & Hfield & _ & Hrec).
  rewrite Hview in Hfield, Hrec.
  do 3 (split; [done|]). split.
  - intros d0 Hd0 Hday. unfold looked. rewrite Hd0.
    cbn [from_option Datatypes.id]. by apply rollover_same_day.
  - intros [Hnone|(d0 & Hd0 & Hday)]; unfold looked.
    + rewrite Hnone. cbn [from_option Datatypes.id].
      by rewrite rollover_same_day.
    + rewrite Hd0. cbn [from_option Datatypes.id].
      by rewrite (rollover_new_day _ _ Hday).
Qed.

(** C5: when an admitted request is answered by the provider with a
    deployment, and the clock reads now at the two assignments, the record
    of the client is the object the request's quota lookup returned with
    remaining one less, lastDeployment set to now and cooldownUntil set to
    now plus five minutes.  Nothing in this depends on the new value of
    remaining: the cooldown is set also when that value is 0. *)
Theorem success_charges_and_cools (w : World) (req : Request) (s s1 : Store)
    (nm clientId : string) (files : list (string * string)) (q : ref)
    (dep : Deployment) (now : Z) :
  allocated s →
  prepare w req s = (Submit nm files clientId q, s1) →
  vercel w = Resolved dep →
  deployedNow (clock w) = now → cooldownNow (clock w) = now →
  let d := deref s1 q in
  clientId = getClientId req ∧
  status (fst (handler w req s)) = 200 ∧
  numberField "remainingQuota" (fst (handler w req s)) = Some (remaining d - 1) ∧
  record (snd (handler w req s)) clientId
  = Some {| remaining := remaining d - 1; lastReset := lastReset d;
            lastDeployment := Some now;
            cooldownUntil := now + 5 * 60 * 1000 |}.
Proof.
  intros Hs Hp Hv Hlast Hcool d.
  destruct (submitted_object _ _ _ _ _ _ _ _ Hs Hp) as (Hid & Hd & _).
  split; [exact Hid|].
  unfold handler. rewrite Hp, Hv.
  pose proof (settle_Resolved (clock w) nm clientId q d s1 Hd dep) as Hsettle.
  destruct (settle _ _ _ _ _ _) as [r s']. cbn [fst snd].
  destruct Hsettle as (Hst & Hfield & Hrec).
  repeat split; try done. rewrite Hrec. unfold charged. by rewrite Hlast, Hcool.
Qed.

End Admission.

(** * The calendar date *)

Section Calendar.

Context {platform : Platform}.




Lemma handler_quotaCheck (w : World) (req : Request) (s : Store) :
  method req = "POST" → name req = Some "quota-check" →
  handler w req s = quotaCheck (clock w) req s.
Proof.
  intros Hm Hn. unfold handler, prepare. rewrite Hm, Hn.
  change (String.eqb "POST" "OPTIONS") with false.
  change (String.eqb "POST" "POST") with true. cbn [negb].
  rewrite bool_decide_eq_true_2 by done.
  by destruct (quotaCheck _ _ _).
Qed.

(** Quota-check requests of one client on one date, met by a record dated
    that date which no sweep removes, report its remaining and leave it. *)
Lemma quotaChecks_same_day (day clientId : string) (d : QuotaInfo)
    (rs : list (World * Request)) (s : Store) :
  allocated s →
  record s clientId = Some d →
  lastReset d = day →
  Forall (λ wr, method wr.2 = "POST" ∧ name wr.2 = Some "quota-check" ∧
                getClientId wr.2 = clientId ∧ today (clock wr.1) = day ∧
                expired (lookupNow (clock wr.1)) d = false) rs →
  record (serve rs s) clientId = Some d ∧
  Forall (λ r, status r = 200 ∧
               numberField "remainingQuota" r = Some (remaining d))
         (replies rs s).
Proof.
  intros Hs Hrec Hday Hrs. revert s Hs Hrec.
  induction Hrs as [|[w req] rs (Hm & Hn & Hid & Hw & Hexp) _ IH];
    intros s Hs Hrec; [done|].
  cbn [serve replies fst snd] in *.
  rewrite (handler_quotaCheck w req s Hm Hn).
  destruct (quotaCheck_lookup (clock w) req s) as (q & s1 & Hq & Hsnd & Hst & Hf).
  rewrite Hsnd. rewrite Hid, Hw in Hq.
  destruct (getQuotaInfo_data _ _ _ _ _ _ Hs Hq) as (Hd & Hderef & Hmap).
  rewrite Hrec in Hd, Hderef, Hmap.
  cbn [from_option Datatypes.id] in Hd, Hderef, Hmap.
  rewrite (rollover_same_day _ _ Hday) in Hd, Hderef, Hmap.
  rewrite Hexp in Hmap.
  assert (Hs1 : allocated s1).
  { by destruct (getQuotaInfo_holds (λ _ _, True) _ _ _ _ _ _ Hs I
                   (λ _ _ _, I) Hq). }
  assert (Hrec1 : record s1 clientId = Some d).
  { unfold record. by rewrite Hmap. }
  destruct (IH _ Hs1 Hrec1) as [IH1 IH2].
  split; [done|]. constructor; [|done].
  split; [done|]. by rewrite Hf, Hderef.
Qed.

(** C9, amended: quota-check requests of one client on one calendar date,
    where the sweep of none of the lookups removes the record the first
    lookup returns (its lastDeployment is null, 0, or at most 24 hours
    before the time of each lookup), all get status 200 and report the
    same remainingQuota, the remaining of that record.  That record is the
    stored one when it is dated that date, and else the outcome of the
    creation or of the daily reset, with remaining 50; it is the record
    stored after the calls.  So the calls leave remaining as it is when
    the stored record is dated that date; otherwise the first call sets it
    to 50 and the later calls leave it. *)
Theorem quota_check_keeps_remaining (day clientId : string)
    (rs : list (World * Request)) (s : Store) :
  allocated s →
  let d := rollover day (default (newQuota day) (record s clientId)) in
  Forall (λ wr, method wr.2 = "POST" ∧ name wr.2 = Some "quota-check" ∧
                getClientId wr.2 = clientId ∧ today (clock wr.1) = day ∧
                expired (lookupNow (clock wr.1)) d = false) rs →
  Forall (λ r, status r = 200 ∧
               numberField "remainingQuota" r = Some (remaining d))
         (replies rs s) ∧
  (rs ≠ [] → record (serve rs s) clientId = Some d) ∧
  (∀ d0, record s clientId = Some d0 → lastReset d0 = day →
     d = d0 ∧ record (serve rs s) clientId = Some d0) ∧
  (record s clientId = None
   ∨ (∃ d0, record s clientId = Some d0 ∧ lastReset d0 ≠ day) →
   remaining d = 50).
Proof.
  intros Hs d Hrs.
  assert (Hsame : ∀ d0, record s clientId = Some d0 → lastReset d0 = day →
                        d = d0).
  { intros d0 Hd0 Hday. unfold d. rewrite Hd0.
    cbn [from_option Datatypes.id]. by apply rollover_same_day. }
  assert (Hfifty : record s clientId = None
                   ∨ (∃ d0, record s clientId = Some d0 ∧ lastReset d0 ≠ day) →
                   remaining d = 50).
  { intros [Hnone|(d0 & Hd0 & Hday)]; unfold d.
    - rewrite Hnone. cbn [from_option Datatypes.id].
      by rewrite rollover_same_day.
    - rewrite Hd0. cbn [from_option Datatypes.id].
      by rewrite (rollover_new_day _ _ Hday). }
  destruct Hrs as [|[w req] rs (Hm & Hn & Hid & Hw & Hexp) Hrs].
  { split; [done|]. split; [done|]. split; [|done].
    intros d0 Hd0 Hday. split; [by apply Hsame|done]. }
  cbn [serve replies fst snd] in *.
  rewrite (handler_quotaCheck w req s Hm Hn).
  destruct (quotaCheck_lookup (clock w) req s) as (q & s1 & Hq & Hsnd & Hst & Hf).
  rewrite Hsnd. rewrite Hid, Hw in Hq.
  destruct (getQuotaInfo_data _ _ _ _ _ _ Hs Hq) as (Hd & Hderef & Hmap).
  fold d in Hd, Hderef, Hmap. rewrite Hexp in Hmap.
  assert (Hs1 : allocated s1).
  { by destruct (getQuotaInfo_holds (λ _ _, True) _ _ _ _ _ _ Hs I
                   (λ _ _ _, I) Hq). }
  assert (Hrec1 : record s1 clientId = Some d).
  { unfold record. by rewrite Hmap. }
  destruct (quotaChecks_same_day day clientId d rs s1 Hs1 Hrec1
              (lastReset_rollover _ _) Hrs) as [Hkept Hreplies].
  split.
  { constructor; [|done]. split; [done|]. by rewrite Hf, Hderef. }
  split; [done|]. split; [|done].
  intros d0 Hd0 Hday. rewrite <- (Hsame d0 Hd0 Hday). done.
Qed.

End Calendar.

(** * More on the safety filter *)

(** The three tests of the filter, the last one without its exception, which
    no path reaches. *)
Lemma isSafeFile_tests (p : string) :
  isSafeFile p
  = Js.arrayIncludes safeExtensions (Js.toLowerCase (Path.extname p))
    && negb (Js.includes p "..") && negb (Js.includes p "//")
    && negb (Js.startsWith (Path.basename p) ".").
Proof.
  unfold isSafeFile.
  destruct (Js.arrayIncludes _ _) eqn:Hext; cbn [negb andb]; [|done].
  destruct (Js.includes p ".."); cbn [orb negb andb]; [done|].
  destruct (Js.includes p "//"); cbn [negb andb]; [done|].
  destruct (Js.startsWith (Path.basename p) ".") eqn:Hdot; cbn [andb negb]; [|done].
  destruct (String.eqb_spec (Path.basename p) ".htaccess") as [E|E]; [|done].
  by rewrite (extname_htaccess p E) in Hext.
Qed.

(** X1: the filter accepts a path exactly when its extension, in small
    letters, is on the list, no two dots and no two slashes stand side by
    side in it, and its base name does not start with a dot. *)
Theorem isSafeFile_accepts_iff (p : string) :
  isSafeFile p = true ↔
  Js.arrayIncludes safeExtensions (Js.toLowerCase (Path.extname p)) = true ∧
  ¬ contains p ".." ∧ ¬ contains p "//" ∧
  Js.startsWith (Path.basename p) "." = false.
Proof.
  rewrite <- !includes_spec, isSafeFile_tests, !andb_true_iff, !negb_true_iff.
  rewrite !not_true_iff_false. tauto.
Qed.

(** Lower case keeps the dot and the slash, and only them. *)
Lemma lowerChar_eqb (c x : ascii) :
  x = Path.slash ∨ x = Path.dot →
  Ascii.eqb (Js.lowerChar c) x = Ascii.eqb c x.
Proof.
  intros [-> | ->]; destruct c as [[] [] [] [] [] [] [] []]; reflexivity.
Qed.

Lemma lowerChar_idem (c : ascii) : Js.lowerChar (Js.lowerChar c) = Js.lowerChar c.
Proof. destruct c as [[] [] [] [] [] [] [] []]; reflexivity. Qed.

Lemma toLowerCase_idem (s : string) :
  Js.toLowerCase (Js.toLowerCase s) = Js.toLowerCase s.
Proof. induction s as [|c s IH]; [done|]. cbn. by rewrite lowerChar_idem, IH. Qed.

Lemma toLowerCase_append (s t : string) :
  Js.toLowerCase (s +:+ t) = Js.toLowerCase s +:+ Js.toLowerCase t.
Proof.
  induction s as [|c s IH]; [done|].
  rewrite append_cons. cbn [Js.toLowerCase]. by rewrite append_cons, IH.
Qed.

Lemma toLowerCase_rev_app (s t : string) :
  Js.toLowerCase (String.rev_app s t)
  = String.rev_app (Js.toLowerCase s) (Js.toLowerCase t).
Proof.
  revert t. induction s as [|c s IH]; intros t; [done|].
  cbn [String.rev_app Js.toLowerCase]. by rewrite IH.
Qed.

Lemma toLowerCase_rev (s : string) :
  Js.toLowerCase (String.rev s) = String.rev (Js.toLowerCase s).
Proof. unfold String.rev. by rewrite toLowerCase_rev_app. Qed.

Lemma toLowerCase_skipSeparators (r : string) :
  Path.skipSeparators (Js.toLowerCase r) = Js.toLowerCase (Path.skipSeparators r).
Proof.
  induction r as [|c r IH]; [done|]. cbn [Js.toLowerCase Path.skipSeparators].
  rewrite lowerChar_eqb by auto. by destruct (Ascii.eqb c Path.slash).
Qed.

Lemma toLowerCase_untilSeparator (r : string) :
  Path.untilSeparator (Js.toLowerCase r) = Js.toLowerCase (Path.untilSeparator r).
Proof.
  induction r as [|c r IH]; [done|]. cbn [Js.toLowerCase Path.untilSeparator].
  rewrite lowerChar_eqb by auto. destruct (Ascii.eqb c Path.slash); [done|].
  cbn [Js.toLowerCase]. by rewrite IH.
Qed.

Lemma toLowerCase_lastPortionRev (p : string) :
  Path.lastPortionRev (Js.toLowerCase p) = Js.toLowerCase (Path.lastPortionRev p).
Proof.
  unfold Path.lastPortionRev.
  by rewrite <- toLowerCase_rev, toLowerCase_skipSeparators, toLowerCase_untilSeparator.
Qed.

Lemma toLowerCase_basename (p : string) :
  Path.basename (Js.toLowerCase p) = Js.toLowerCase (Path.basename p).
Proof.
  unfold Path.basename. by rewrite toLowerCase_lastPortionRev, toLowerCase_rev.
Qed.

Lemma toLowerCase_splitAtDot (r : string) :
  Path.splitAtDot (Js.toLowerCase r)
  = (λ er, (Js.toLowerCase er.1, Js.toLowerCase er.2)) <$> Path.splitAtDot r.
Proof.
  induction r as [|c r IH]; [done|]. cbn [Js.toLowerCase Path.splitAtDot].
  rewrite lowerChar_eqb by auto. destruct (Ascii.eqb c Path.dot); [done|].
  rewrite IH. by destruct (Path.splitAtDot r) as [[e rest]|].
Qed.

Lemma toLowerCase_eqb_empty (s : string) :
  String.eqb (Js.toLowerCase s) "" = String.eqb s "".
Proof. by destruct s. Qed.

Lemma toLowerCase_eqb_dot (s : string) :
  String.eqb (Js.toLowerCase s) "." = String.eqb s ".".
Proof.
  destruct s as [|c s]; [done|].
  change (String.eqb (Js.toLowerCase (String c s)) ".")
    with (Ascii.eqb (Js.lowerChar c) Path.dot && String.eqb (Js.toLowerCase s) "").
  by rewrite lowerChar_eqb, toLowerCase_eqb_empty by auto.
Qed.

Lemma toLowerCase_extname (p : string) :
  Path.extname (Js.toLowerCase p) = Js.toLowerCase (Path.extname p).
Proof.
  unfold Path.extname. rewrite toLowerCase_lastPortionRev, toLowerCase_splitAtDot.
  destruct (Path.splitAtDot (Path.lastPortionRev p)) as [[e rest]|]; [|done].
  cbn [fmap option_fmap option_map fst snd].
  rewrite toLowerCase_eqb_empty, toLowerCase_eqb_dot.
  destruct rest as [|c rest]; [done|]. cbn [Js.toLowerCase].
  destruct (_ && _); [done|].
  by rewrite toLowerCase_rev, toLowerCase_append.
Qed.

Lemma lowerChar_eqb_l (c x : ascii) :
  x = Path.slash ∨ x = Path.dot →
  Ascii.eqb x (Js.lowerChar c) = Ascii.eqb x c.
Proof. intros Hx. by rewrite !(Ascii.eqb_sym x), lowerChar_eqb. Qed.

(** A prefix made of dots and slashes is found in a string as in its lower
    case. *)
Lemma toLowerCase_startsWith (x s : string) :
  Forall (λ c, c = Path.slash ∨ c = Path.dot) (list_ascii_of_string x) →
  Js.startsWith (Js.toLowerCase s) x = Js.startsWith s x.
Proof.
  revert s. induction x as [|a x IH]; intros s Hx; [by destruct s|].
  cbn [list_ascii_of_string] in Hx. apply Forall_cons in Hx as [Ha Hx].
  destruct s as [|c s]; [done|]. cbn [Js.toLowerCase Js.startsWith].
  by rewrite lowerChar_eqb_l, IH.
Qed.

Lemma toLowerCase_includes (x s : string) :
  Forall (λ c, c = Path.slash ∨ c = Path.dot) (list_ascii_of_string x) →
  Js.includes (Js.toLowerCase s) x = Js.includes s x.
Proof.
  intros Hx. induction s as [|c s IH].
  - cbn [Js.includes Js.toLowerCase].
    by rewrite <- (toLowerCase_startsWith x "" Hx).
  - cbn [Js.includes Js.toLowerCase]. rewrite IH.
    change (String (Js.lowerChar c) (Js.toLowerCase s))
      with (Js.toLowerCase (String c s)).
    by rewrite toLowerCase_startsWith.
Qed.

Lemma isSafeFile_toLowerCase (p : string) :
  isSafeFile (Js.toLowerCase p) = isSafeFile p.
Proof.
  rewrite !isSafeFile_tests.
  rewrite toLowerCase_extname, toLowerCase_idem, toLowerCase_basename.
  assert (H1 : Forall (λ c, c = Path.slash ∨ c = Path.dot) (list_ascii_of_string "."))
    by (repeat constructor; auto).
  assert (H2 : Forall (λ c, c = Path.slash ∨ c = Path.dot) (list_ascii_of_string ".."))
    by (repeat constructor; auto).
  assert (H3 : Forall (λ c, c = Path.slash ∨ c = Path.dot) (list_ascii_of_string "//"))
    by (repeat constructor; auto).
  by rewrite !toLowerCase_includes, toLowerCase_startsWith.
Qed.

(** X2: the filter does not look at the case of letters: two paths that are
    equal once in small letters are both accepted or both rejected. *)
Theorem isSafeFile_case_insensitive (p q : string) :
  Js.toLowerCase p = Js.toLowerCase q → isSafeFile p = isSafeFile q.
Proof.
  intros H. by rewrite <- (isSafeFile_toLowerCase p), H, isSafeFile_toLowerCase.
Qed.

Lemma untilSeparator_slash_end (r : string) :
  Path.untilSeparator (r +:+ "/") = Path.untilSeparator r.
Proof.
  induction r as [|c r IH]; [done|].
  rewrite append_cons. cbn [Path.untilSeparator].
  destruct (Ascii.eqb c Path.slash); [done|]. by rewrite IH.
Qed.

Lemma lastPortionRev_leading_slash (p : string) :
  Path.lastPortionRev ("/" +:+ p) = Path.lastPortionRev p.
Proof.
  unfold Path.lastPortionRev. rewrite rev_append.
  change (String.rev "/") with "/".
  induction (String.rev p) as [|c r IH]; [done|].
  rewrite append_cons. cbn [Path.skipSeparators].
  destruct (Ascii.eqb c Path.slash); [done|].
  rewrite <- append_cons. apply untilSeparator_slash_end.
Qed.

(** X3: a slash put before a path that does not start with one changes
    nothing for the filter: absolute paths are treated as relative ones. *)
Theorem isSafeFile_leading_slash (p : string) :
  Js.startsWith p "/" = false →
  isSafeFile ("/" +:+ p) = isSafeFile p.
Proof.
  intros Hp. unfold isSafeFile, Path.extname, Path.basename.
  rewrite lastPortionRev_leading_slash.
  change ("/" +:+ p) with (String "/" p). cbn [Js.includes Js.startsWith].
  change (Ascii.eqb "." "/") with false. change (Ascii.eqb "/" "/") with true.
  cbn [andb orb]. by rewrite Hp.
Qed.

(** * More on the upload processor *)

Section UploadMore.

Context {platform : Platform}.

Lemma index_name_safe (n : string) :
  Js.toLowerCase n = "index.html" → isSafeFile n = true.
Proof. intros H. by rewrite <- isSafeFile_toLowerCase, H. Qed.

(** X5: an upload named as an archive, once opened, goes through with the
    files of the loop when an entry that is no directory is named index.html
    in any case of letters, its whole path being that name; when no entry
    is, it is refused with status 400. *)
Theorem archive_accepted_iff (fileName fileData : string)
    (zipEntries : list ZipEntry) :
  Js.endsWith (Js.toLowerCase fileName) ".zip" = true →
  openZip fileData = inr zipEntries →
  (processUpload fileName fileData = inr (extractEntries zipEntries) ∧
   ∃ entry, entry ∈ zipEntries ∧ isDirectory entry = false ∧
            Js.toLowerCase (entryName entry) = "index.html")
  ∨
  (processUpload fileName fileData
   = inl (json 400 [("error", JStr "ZIP harus ada index.html")]) ∧
   ∀ entry, entry ∈ zipEntries → isDirectory entry = false →
            Js.toLowerCase (entryName entry) ≠ "index.html").
Proof.
  intros Hzip Hopen. unfold processUpload. rewrite Hzip, Hopen.
  destruct (hasIndex (extractEntries zipEntries)) eqn:Hidx; cbn [negb].
  - left. split; [done|].
    apply hasIndex_elem in Hidx as (f & Hf & Hn).
    apply extractEntries_elem in Hf as (e & He & Hd & _ & ->). by exists e.
  - right. split; [done|]. intros e He Hd Hn.
    assert (hasIndex (extractEntries zipEntries) = true); [|congruence].
    apply hasIndex_elem.
    exists {| filepath := entryName e; content := toBase64 (getData e);
              isBuffer := false |}.
    split; [|exact Hn].
    apply extractEntries_elem. exists e. by rewrite (index_name_safe _ Hn).
Qed.

(** X4: a file set that comes out of the processing of an upload is not
    empty, has a file whose path is index.html in small letters, and has
    only files whose path passes the filter. *)
Theorem processUpload_file_set (fileName fileData : string)
    (files : list UploadFile) :
  processUpload fileName fileData = inr files →
  files ≠ [] ∧
  (∃ f, f ∈ files ∧ Js.toLowerCase (filepath f) = "index.html") ∧
  Forall (λ f, isSafeFile (filepath f) = true ∧ isBuffer f = false) files.
Proof.
  unfold processUpload.
  destruct (Js.endsWith (Js.toLowerCase fileName) ".zip").
  - destruct (openZip fileData) as [msg|es]; [done|].
    destruct (hasIndex (extractEntries es)) eqn:Hidx; [|done].
    intros [= <-]. apply hasIndex_elem in Hidx as (f & Hf & Hn).
    split; [by intros E; rewrite E in Hf; apply elem_of_nil in Hf|].
    split; [by exists f|].
    apply Forall_forall. intros g Hg.
    by apply extractEntries_elem in Hg as (e & _ & _ & Hs & ->).
  - destruct (_ || _); [|done]. intros [= <-].
    split; [done|]. split; [|by repeat constructor].
    eexists. split; [apply list_elem_of_here|done].
Qed.

Lemma processUpload_index (fileName fileData : string) (files : list UploadFile) :
  processUpload fileName fileData = inr files →
  ∃ f, f ∈ files ∧ Js.toLowerCase (filepath f) = "index.html".
Proof.
  unfold processUpload.
  destruct (Js.endsWith (Js.toLowerCase fileName) ".zip").
  - destruct (openZip fileData) as [msg|es]; [done|].
    destruct (hasIndex (extractEntries es)) eqn:Hidx; [|done].
    intros [= <-]. by apply hasIndex_elem.
  - destruct (_ || _); [|done]. intros [= <-].
    eexists. split; [apply list_elem_of_here|done].
Qed.

End UploadMore.

(** * The gates of the handler *)

Section Gate.

Context {platform : Platform}.

(** X6: a request that is turned away before the quota lookup leaves the
    store as it was, no record made or changed.  It gets 200 with no body
    for OPTIONS, 405 for another method that is not POST, and 400 for a POST
    whose body carries at least one of name, fileData and fileName. *)
Theorem turned_away_leaves_store (w : World) (req : Request) (s : Store) :
  turnedAway req →
  snd (handler w req s) = s ∧
  (method req = "OPTIONS" →
   fst (handler w req s) = {| status := 200; body := None |}) ∧
  (method req ≠ "OPTIONS" → method req ≠ "POST" →
   status (fst (handler w req s)) = 405) ∧
  (method req = "POST" →
   is_Some (name req) ∨ is_Some (fileData req) ∨ is_Some (fileName req) →
   status (fst (handler w req s)) = 400).
Proof.
  intros Hreq. unfold handler, prepare.
  destruct (String.eqb_spec (method req) "OPTIONS") as [Hopt|Hopt].
  { rewrite Hopt. by repeat split. }
  destruct (String.eqb_spec (method req) "POST") as [Hpost|Hpost]; cbn [negb];
    [|by repeat split].
  destruct Hreq as [?|[Hqc Hreq]]; [done|].
  rewrite bool_decide_eq_false_2 by done.
  destruct (name req) as [nm|]; [|by repeat split].
  destruct (fileData req) as [fd|]; [|by repeat split].
  destruct (fileName req) as [fn|]; [|by repeat split].
  cbn [truthy] in Hreq.
  destruct (String.eqb nm ""); [by repeat split|].
  destruct (String.eqb fd ""); [by repeat split|].
  destruct (String.eqb fn ""); [by repeat split|]. cbn [orb negb] in *.
  destruct Hreq as [?|[?|[?|(nm' & [= <-] & ->)]]]; done.
Qed.

(** X7: nothing is submitted to the provider unless the request is a POST
    with a well-formed name other than quota-check, the token is set, the
    record of the client has no cooldown running and has quota left, and the
    file list has a file named index.html in small letters. *)
Theorem submission_gate (w : World) (req : Request) (s s1 : Store)
    (nm clientId : string) (files : list (string * string)) (q : ref) :
  prepare w req s = (Submit nm files clientId q, s1) →
  method req = "POST" ∧ name req = Some nm ∧
  validName nm = true ∧ nm ≠ "quota-check" ∧
  truthy (vercelToken w) = true ∧
  cooldownUntil (deref s1 q) ≤ checkNow (clock w) ∧
  0 < remaining (deref s1 q) ∧
  ∃ path data, (path, data) ∈ files ∧ Js.toLowerCase path = "index.html".
Proof.
  intros Hp.
  destruct (prepare_Submit _ _ _ _ _ _ _ _ Hp) as (fd & fn & Hn & Hfd & Hfn & Hadm).
  destruct (admission_Submit _ _ _ _ _ _ _ _ _ _ Hadm)
    as (_ & _ & Hcool & Hrem & fs & Hfs & ->).
  unfold prepare in Hp.
  destruct (String.eqb (method req) "OPTIONS"); [done|].
  destruct (String.eqb_spec (method req) "POST") as [Hpost|Hpost]; cbn [negb] in Hp;
    [|done].
  case_bool_decide as Hqc; [by destruct (quotaCheck _ _ _)|].
  rewrite Hn, Hfd, Hfn in Hp. destruct (_ || _); [done|].
  destruct (validName nm) eqn:Hvalid; [|done]. cbn [negb] in Hp.
  unfold admission in Hp. destruct (getQuotaInfo _ _ _ _) as [q' s'].
  destruct (_ >? _); [done|]. destruct (_ <=? _); [done|].
  rewrite Hfs in Hp. destruct (truthy (vercelToken w)); [|done].
  repeat split; try done; [congruence|].
  destruct (processUpload_index _ _ _ Hfs) as (f & Hf & Hidx).
  exists (filepath f), (content f). split; [|done].
  unfold vercelFiles. apply list_elem_of_In, in_map_iff. exists f.
  by rewrite <- list_elem_of_In.
Qed.

(** X8: when the provider fails with an error that is not the error of a
    taken name, the response has status 500 with the provider's message, or
    with "Deployment gagal" when it has none, carries no remainingQuota, and
    the store is as the quota lookup left it: nothing is charged. *)
Theorem other_failure_not_charged (w : World) (req : Request) (s s1 : Store)
    (nm clientId : string) (files : list (string * string)) (q : ref)
    (e : option ApiError) :
  prepare w req s = (Submit nm files clientId q, s1) →
  vercel w = Rejected e →
  nameTaken e = false →
  snd (handler w req s) = s1 ∧
  status (fst (handler w req s)) = 500 ∧
  field "error" (fst (handler w req s))
  = Some (JStr (orElse (e ≫= message) "Deployment gagal")) ∧
  field "remainingQuota" (fst (handler w req s)) = None.
Proof.
  intros Hp Hv He. unfold handler. rewrite Hp, Hv. cbn [settle]. by rewrite He.
Qed.

End Gate.

(** * Cooldown and fresh quota *)

Lemma ceilSeconds_bounds (x : Z) :
  1000 * (ceilSeconds x - 1) < x ≤ 1000 * ceilSeconds x.
Proof.
  unfold ceilSeconds.
  pose proof (Z.div_mod (- x) 1000 ltac:(lia)).
  pose proof (Z.mod_pos_bound (- x) 1000 ltac:(lia)). lia.
Qed.

Section Cooldown.

Context {platform : Platform}.

Lemma prepare_deployRequest (w : World) (req : Request) (s : Store)
    (nm fd fn : string) :
  deployRequest req nm fd fn →
  prepare w req s = admission w req nm fd fn s.
Proof.
  intros (Hm & Hn & Hfd & Hfn & Hqc & Hvalid & Hfd' & Hfn').
  unfold prepare. rewrite Hm, Hn, Hfd, Hfn.
  change (String.eqb "POST" "OPTIONS") with false.
  change (String.eqb "POST" "POST") with true. cbn [negb].
  rewrite bool_decide_eq_false_2 by congruence.
  assert (String.eqb nm "" = false) as ->.
  { apply String.eqb_neq. intros ->. by cbn in Hvalid. }
  apply String.eqb_neq in Hfd' as ->. apply String.eqb_neq in Hfn' as ->.
  cbn [orb]. by rewrite Hvalid.
Qed.

Lemma handler_allocated (w : World) (req : Request) (s : Store) :
  allocated s → allocated (snd (handler w req s)).
Proof. by apply handler_holds. Qed.

(** The response to a deployment request met by a running cooldown. *)
Lemma handler_cooldown (w : World) (req : Request) (s s1 : Store)
    (nm fd fn : string) (q : ref) :
  deployRequest req nm fd fn →
  getQuotaInfo (lookupNow (clock w)) (today (clock w)) (getClientId req) s
  = (q, s1) →
  checkNow (clock w) < cooldownUntil (deref s1 q) →
  handler w req s
  = (json 429 [("error", JStr "Cooldown aktif");
               ("cooldown", JBool true);
               ("remainingSeconds",
                JNum (ceilSeconds (cooldownUntil (deref s1 q)
                                   - secondsNow (clock w))));
               ("remainingQuota", JNum (remaining (deref s1 q)))], s1).
Proof.
  intros Hreq Hq Hcool. unfold handler.
  rewrite (prepare_deployRequest _ _ _ _ _ _ Hreq). unfold admission.
  rewrite Hq. by rewrite (proj2 (Z.gtb_lt _ _)) by done.
Qed.

(** A deployment request that passes the two quota tests is not answered
    with 429. *)
Lemma handler_admitted_status (w : World) (req : Request) (s s1 : Store)
    (nm fd fn : string) (q : ref) :
  deployRequest req nm fd fn →
  getQuotaInfo (lookupNow (clock w)) (today (clock w)) (getClientId req) s
  = (q, s1) →
  cooldownUntil (deref s1 q) ≤ checkNow (clock w) →
  0 < remaining (deref s1 q) →
  status (fst (handler w req s)) ≠ 429.
Proof.
  intros Hreq Hq Hcool Hrem. unfold handler.
  rewrite (prepare_deployRequest _ _ _ _ _ _ Hreq). unfold admission.
  rewrite Hq, Z.gtb_ltb, (proj2 (Z.ltb_ge _ _)), (proj2 (Z.leb_gt _ _)) by lia.
  unfold processUpload.
  destruct (Js.endsWith (Js.toLowerCase fn) ".zip").
  - destruct (openZip fd); [done|]. destruct (negb (hasIndex _)); [done|].
    destruct (negb _); [done|]. unfold settle.
    destruct (vercel w); [done|]. by destruct (nameTaken _).
  - destruct (_ || _); [|done]. destruct (negb _); [done|]. unfold settle.
    destruct (vercel w); [done|]. by destruct (nameTaken _).
Qed.

(** X9: a deployment request of the client of a successful deployment, on
    the same date and before five minutes have passed since that deployment,
    is answered with 429, cooldown true, the remaining quota after the debit,
    and the seconds left, rounded up, between 1 and 300; it leaves the
    record of the client as the deployment charged it. *)
Theorem cooldown_after_success (w1 w2 : World) (req1 req2 : Request)
    (s s1 : Store) (nm1 clientId : string) (files : list (string * string))
    (q : ref) (dep : Deployment) (nm2 fd2 fn2 : string) :
  allocated s →
  prepare w1 req1 s = (Submit nm1 files clientId q, s1) →
  vercel w1 = Resolved dep →
  deployRequest req2 nm2 fd2 fn2 →
  getClientId req2 = clientId →
  today (clock w2) = today (clock w1) →
  checkNow (clock w2) < cooldownNow (clock w1) + 5 * 60 * 1000 →
  let until := cooldownNow (clock w1) + 5 * 60 * 1000 in
  let r := fst (handler w2 req2 (snd (handler w1 req1 s))) in
  status r = 429 ∧
  field "cooldown" r = Some (JBool true) ∧
  numberField "remainingQuota" r = Some (remaining (deref s1 q) - 1) ∧
  numberField "remainingSeconds" r
  = Some (ceilSeconds (until - secondsNow (clock w2))) ∧
  (cooldownNow (clock w1) ≤ secondsNow (clock w2) < until →
   1 ≤ ceilSeconds (until - secondsNow (clock w2)) ≤ 300) ∧
  ∀ d, record (snd (handler w2 req2 (snd (handler w1 req1 s)))) clientId = Some d →
       d = charged (clock w1) (deref s1 q).
Proof.
  intros Hs Hp Hv Hreq Hid Hday Hsoon until.
  destruct (submitted_object _ _ _ _ _ _ _ _ Hs Hp) as (_ & Hd & Hview & _ & _).
  assert (Hdated : lastReset (deref s1 q) = today (clock w1))
    by (rewrite Hview; apply lastReset_rollover).
  pose proof (handler_allocated w1 req1 s Hs) as Hs'.
  assert (Hrec : record (snd (handler w1 req1 s)) clientId
                 = Some (charged (clock w1) (deref s1 q))).
  { unfold handler. rewrite Hp, Hv.
    pose proof (settle_Resolved (clock w1) nm1 clientId q _ s1 Hd dep) as H.
    destruct (settle _ _ _ _ _ _) as [r0 s0]. by destruct H as (_ & _ & H). }
  destruct (getQuotaInfo (lookupNow (clock w2)) (today (clock w2))
                         (getClientId req2) (snd (handler w1 req1 s)))
    as [q2 s2] eqn:Hq2.
  destruct (getQuotaInfo_data _ _ _ _ _ _ Hs' Hq2) as (Hd2 & Hderef2 & Hmap2).
  rewrite Hid, Hrec, Hday in Hd2, Hderef2, Hmap2.
  cbn [from_option Datatypes.id] in Hd2, Hderef2, Hmap2.
  rewrite (rollover_same_day _ (charged (clock w1) (deref s1 q)) Hdated)
    in Hd2, Hderef2, Hmap2.
  intros r. subst r.
  rewrite (handler_cooldown w2 req2 _ s2 nm2 fd2 fn2 q2 Hreq Hq2)
    by (by rewrite Hderef2).
  cbn [fst snd]. rewrite Hderef2.
  split; [done|]. split; [done|]. split; [done|]. split; [done|]. split.
  - intros Hsec. pose proof (ceilSeconds_bounds (until - secondsNow (clock w2))).
    unfold until in *. lia.
  - intros d. unfold record. rewrite Hmap2.
    destruct (expired _ _); [done|]. rewrite Hd2. by intros [= <-].
Qed.

(** X10: a deployment request of a client that has no record, or whose
    record is dated another day, is never answered with 429: the lookup
    hands out a record with 50 left and no cooldown. *)
Theorem fresh_quota_not_rate_limited (w : World) (req : Request) (s : Store)
    (nm fd fn : string) :
  allocated s →
  deployRequest req nm fd fn →
  (∀ d, record s (getClientId req) = Some d → lastReset d ≠ today (clock w)) →
  0 ≤ checkNow (clock w) →
  status (fst (handler w req s)) ≠ 429.
Proof.
  intros Hs Hreq Hfresh Hnow.
  destruct (getQuotaInfo (lookupNow (clock w)) (today (clock w))
                         (getClientId req) s) as [q s1] eqn:Hq.
  destruct (getQuotaInfo_data _ _ _ _ _ _ Hs Hq) as (_ & Hderef & _).
  assert (Hcool : cooldownUntil (deref s1 q) = 0 ∧ remaining (deref s1 q) = 50).
  { rewrite Hderef. destruct (record s (getClientId req)) as [d|] eqn:Hrec;
      cbn [from_option Datatypes.id].
    - by rewrite (rollover_new_day _ _ (Hfresh d eq_refl)).
    - by rewrite rollover_same_day. }
  destruct Hcool as [Hc Hr].
  apply (handler_admitted_status w req s s1 nm fd fn q Hreq Hq); lia.
Qed.

(** X12: a quota check is no read-only query: for a client without a record
    it answers 200 with remainingQuota 50 and nothing else, and leaves a new
    record of the client in the store. *)
Theorem quota_check_registers_client (w : World) (req : Request) (s : Store) :
  allocated s →
  method req = "POST" → name req = Some "quota-check" →
  record s (getClientId req) = None →
  0 ≤ checkNow (clock w) →
  fst (handler w req s) = json 200 [("remainingQuota", JNum 50)] ∧
  record (snd (handler w req s)) (getClientId req)
  = Some (newQuota (today (clock w))).
Proof.
  intros Hs Hm Hn Hrec Hnow.
  rewrite (handler_quotaCheck w req s Hm Hn). unfold quotaCheck.
  destruct (getQuotaInfo _ _ _ _) as [q s1] eqn:Hq.
  destruct (getQuotaInfo_data _ _ _ _ _ _ Hs Hq) as (Hd & Hderef & Hmap).
  rewrite Hrec in Hd, Hderef, Hmap. cbn [from_option Datatypes.id] in Hd, Hderef, Hmap.
  rewrite rollover_same_day in Hd, Hderef, Hmap by done.
  rewrite Hderef. cbn [newQuota cooldownUntil remaining fst snd].
  rewrite Z.gtb_ltb, (proj2 (Z.ltb_ge _ _)) by lia.
  split; [done|]. unfold record. rewrite Hmap.
  change (expired (lookupNow (clock w)) (newQuota (today (clock w))))
    with (lookupNow (clock w) - lookupNow (clock w) >? 24 * 60 * 60 * 1000).
  rewrite Z.sub_diag. exact Hd.
Qed.

(** X11: the charge for a taken name starts no cooldown: a further
    deployment request of the client on the same date, at the same time or
    later, is not answered with 429 as long as the charged record has quota
    left. *)
Theorem retry_after_name_taken_not_delayed (w1 w2 : World) (req1 req2 : Request)
    (s s1 : Store) (nm1 clientId : string) (files : list (string * string))
    (q : ref) (e : option ApiError) (nm2 fd2 fn2 : string) :
  allocated s →
  prepare w1 req1 s = (Submit nm1 files clientId q, s1) →
  vercel w1 = Rejected e → nameTaken e = true →
  deployRequest req2 nm2 fd2 fn2 →
  getClientId req2 = clientId →
  today (clock w2) = today (clock w1) →
  checkNow (clock w1) ≤ checkNow (clock w2) →
  2 ≤ remaining (deref s1 q) →
  status (fst (handler w2 req2 (snd (handler w1 req1 s)))) ≠ 429.
Proof.
  intros Hs Hp Hv He Hreq Hid Hday Hlater Hrem.
  destruct (submitted_object _ _ _ _ _ _ _ _ Hs Hp) as (_ & Hd & Hview & Hcool & _).
  assert (Hdated : lastReset (deref s1 q) = today (clock w1))
    by (rewrite Hview; apply lastReset_rollover).
  pose proof (handler_allocated w1 req1 s Hs) as Hs'.
  assert (Hrec : record (snd (handler w1 req1 s)) clientId
                 = Some (decrement (deref s1 q))).
  { unfold handler. rewrite Hp, Hv.
    pose proof (settle_taken (clock w1) nm1 clientId q _ s1 Hd e He) as H.
    destruct (settle _ _ _ _ _ _) as [r0 s0]. by destruct H as (_ & _ & _ & H). }
  destruct (getQuotaInfo (lookupNow (clock w2)) (today (clock w2))
                         (getClientId req2) (snd (handler w1 req1 s)))
    as [q2 s2] eqn:Hq2.
  destruct (getQuotaInfo_data _ _ _ _ _ _ Hs' Hq2) as (_ & Hderef2 & _).
  rewrite Hid, Hrec, Hday in Hderef2. cbn [from_option Datatypes.id] in Hderef2.
  rewrite (rollover_same_day _ (decrement (deref s1 q)) Hdated) in Hderef2.
  apply (handler_admitted_status w2 req2 _ s2 nm2 fd2 fn2 q2 Hreq Hq2);
    rewrite Hderef2; cbn; lia.
Qed.

End Cooldown.

(** * The sweep and the other clients *)

Lemma ensure_separated (today clientId : string) (s : Store) :
  allocated s → separated s → separated (ensure today clientId s).
Proof.
  intros Hs Hsep. unfold ensure.
  destruct (deploymentData s !! clientId) eqn:E; [done|].
  intros k1 k2 l. cbn [deploymentData]. rewrite !lookup_insert.
  repeat case_decide; subst; try done.
  - intros [= <-] H2. destruct (Hs _ _ H2) as (d & Hd%lookup_lt_Some & _). lia.
  - intros H1 [= <-]. destruct (Hs _ _ H1) as (d & Hd%lookup_lt_Some & _). lia.
  - apply Hsep.
Qed.

Lemma ensure_record_other (today clientId k : string) (s : Store) :
  allocated s → k ≠ clientId →
  record (ensure today clientId s) k = record s k.
Proof.
  intros Hs Hk. unfold ensure, record.
  destruct (deploymentData s !! clientId) eqn:E; [done|].
  cbn [deploymentData heap]. rewrite lookup_insert_ne by done.
  destruct (deploymentData s !! k) as [l|] eqn:El; [|done].
  destruct (Hs _ _ El) as (d & Hd & _). by rewrite Hd, (lookup_app_l_Some _ _ _ _ Hd).
Qed.

Lemma cleanup_record (now : Z) (s : Store) (k : string) :
  allocated s → record (cleanup now s) k = swept now (record s k).
Proof.
  intros Hs. unfold record, cleanup, swept. cbn [deploymentData heap].
  destruct (deploymentData s !! k) as [l|] eqn:El.
  - destruct (Hs _ _ El) as (d & Hd & _). rewrite Hd.
    destruct (expired now d) eqn:Hexp.
    + assert (filter (λ kv, expired now (heap s !!! kv.2) = false)
                (deploymentData s) !! k = None) as ->; [|done].
      apply map_lookup_filter_None. right. intros l' Hl'.
      rewrite El in Hl'. injection Hl' as <-. cbn [snd].
      rewrite (list_lookup_total_correct _ _ _ Hd). by rewrite Hexp.
    + assert (filter (λ kv, expired now (heap s !!! kv.2) = false)
                (deploymentData s) !! k = Some l) as ->; [|done].
      apply map_lookup_filter_Some. split; [done|]. cbn [snd].
      by rewrite (list_lookup_total_correct _ _ _ Hd).
  - assert (filter (λ kv, expired now (heap s !!! kv.2) = false)
              (deploymentData s) !! k = None) as ->; [|done].
    apply map_lookup_filter_None. by left.
Qed.

(** The lookup of one client and the records of the others. *)
Lemma getQuotaInfo_others (now : Z) (today clientId : string) (s s1 : Store)
    (q : ref) :
  allocated s → separated s →
  getQuotaInfo now today clientId s = (q, s1) →
  allocated s1 ∧ separated s1 ∧
  (∃ d, heap s1 !! q = Some d) ∧
  (∀ k l, k ≠ clientId → deploymentData s1 !! k = Some l → l ≠ q) ∧
  (∀ k, k ≠ clientId → record s1 k = swept now (record s k)).
Proof.
  intros Hs Hsep Hq.
  destruct (getQuotaInfo_data _ _ _ _ _ _ Hs Hq) as (Hd & _ & _).
  assert (Hs1 : allocated s1).
  { by destruct (getQuotaInfo_holds (λ _ _, True) _ _ _ _ _ _ Hs I
                   (λ _ _ _, I) Hq). }
  unfold getQuotaInfo in Hq.
  destruct (ensure_lookup today clientId s Hs) as (l0 & d0 & Hl0 & Hd0 & _).
  rewrite (lookup_total_correct _ _ _ Hl0) in Hq. injection Hq as <- <-.
  pose proof (ensure_separated today clientId s Hs Hsep) as Hsep1.
  assert (Halloc1 : allocated (ensure today clientId s))
    by (by apply holds_ensure).
  split; [done|]. split; [|split; [eauto|split]].
  - intros k1 k2 l H1 H2. cbn [cleanup mutate deploymentData] in H1, H2.
    apply map_lookup_filter_Some in H1 as [H1 _].
    apply map_lookup_filter_Some in H2 as [H2 _]. by eapply Hsep1.
  - intros k l Hk Hl <-. cbn [cleanup mutate deploymentData] in Hl.
    apply map_lookup_filter_Some in Hl as [Hl _]. by apply Hk, (Hsep1 _ _ _ Hl Hl0).
  - intros k Hk. rewrite cleanup_record by (by apply holds_mutate).
    f_equal. rewrite <- (ensure_record_other today clientId k s Hs Hk).
    unfold record, mutate. cbn [deploymentData heap].
    destruct (deploymentData (ensure today clientId s) !! k) as [l|] eqn:El; [|done].
    apply list_lookup_alter_ne. intros <-. by apply Hk, (Hsep1 _ _ _ El Hl0).
Qed.

Lemma charge_others (f : QuotaInfo → QuotaInfo) (clientId : string) (q : ref)
    (s : Store) :
  separated s →
  (∀ k l, k ≠ clientId → deploymentData s !! k = Some l → l ≠ q) →
  separated (saveQuotaInfo clientId q (mutate f q s)) ∧
  ∀ k, k ≠ clientId →
       record (saveQuotaInfo clientId q (mutate f q s)) k = record s k.
Proof.
  intros Hsep Hq. split.
  - intros k1 k2 l. cbn [saveQuotaInfo mutate deploymentData].
    rewrite !lookup_insert. repeat case_decide; subst; try done.
    + intros [= <-] H2. by destruct (Hq _ _ ltac:(done) H2).
    + intros H1 [= <-]. by destruct (Hq _ _ ltac:(done) H1).
    + apply Hsep.
  - intros k Hk. unfold record. cbn [saveQuotaInfo mutate deploymentData heap].
    rewrite lookup_insert_ne by done.
    destruct (deploymentData s !! k) as [l|] eqn:El; [|done].
    apply list_lookup_alter_ne. intros <-. by apply (Hq _ _ Hk El).
Qed.

Section Isolation.

Context {platform : Platform}.

(** A request and the records of the other clients. *)
Lemma handler_others (w : World) (req : Request) (s : Store) :
  allocated s → separated s →
  separated (snd (handler w req s)) ∧
  ∀ k, k ≠ getClientId req →
       record (snd (handler w req s)) k = record s k
       ∨ record (snd (handler w req s)) k = swept (lookupNow (clock w)) (record s k).
Proof.
  intros Hs Hsep. unfold handler.
  destruct (prepare w req s) as [pr s1] eqn:Hp.
  destruct (prepare_store _ _ _ _ _ Hp) as [->|[q Hq]].
  { destruct pr as [r|nm fs cid q]; [by auto|].
    apply prepare_Submit in Hp as (fd & fn & _ & _ & _ & Hadm).
    apply admission_Submit in Hadm as (-> & Hq & _).
    destruct (getQuotaInfo_others _ _ _ _ _ _ Hs Hsep Hq)
      as (_ & Hsep1 & _ & Hfresh & Hrec).
    assert (Hsep' : ∀ f, separated (saveQuotaInfo (getClientId req) q (mutate f q s))
              ∧ ∀ k, k ≠ getClientId req →
                  record (saveQuotaInfo (getClientId req) q (mutate f q s)) k
                  = record s k) by (intros f; by apply charge_others).
    destruct (vercel w) as [dep|e].
    - rewrite settle_Resolved_store. destruct (Hsep' (λ x, charged (clock w) x)).
      split; [done|]. intros k Hk. left. auto.
    - cbn [settle]. destruct (nameTaken e); [|by auto]. cbn [snd].
      destruct (Hsep' decrement). split; [done|]. intros k Hk. left. auto. }
  destruct (getQuotaInfo_others _ _ _ _ _ _ Hs Hsep Hq)
    as (_ & Hsep1 & _ & Hfresh & Hrec).
  destruct pr as [r|nm fs cid q']; [by auto|].
  apply prepare_Submit in Hp as (fd & fn & _ & _ & _ & Hadm).
  apply admission_Submit in Hadm as (-> & Hq' & _).
  rewrite Hq in Hq'. injection Hq' as <-.
  assert (Hsep' : ∀ f, separated (saveQuotaInfo (getClientId req) q (mutate f q s1))
            ∧ ∀ k, k ≠ getClientId req →
                record (saveQuotaInfo (getClientId req) q (mutate f q s1)) k
                = record s1 k) by (intros f; by apply charge_others).
  destruct (vercel w) as [dep|e].
  - rewrite settle_Resolved_store. destruct (Hsep' (λ x, charged (clock w) x)) as [? H].
    split; [done|]. intros k Hk. right. by rewrite H, Hrec.
  - cbn [settle]. destruct (nameTaken e); [|by auto]. cbn [snd].
    destruct (Hsep' decrement) as [? H]. split; [done|].
    intros k Hk. right. by rewrite H, Hrec.
Qed.

Lemma serve_separated (rs : list (World * Request)) (s : Store) :
  allocated s → separated s → separated (serve rs s).
Proof.
  revert s. induction rs as [|[w req] rs IH]; intros s Hs Hsep; [done|].
  cbn [serve]. apply IH; [by apply handler_allocated|].
  by destruct (handler_others w req s Hs Hsep).
Qed.

(** X15: in every store built from the empty one by requests, two
    identifiers of the map never refer to the same object. *)
Theorem clients_never_share_a_record (rs : list (World * Request))
    (k1 k2 : string) (l : ref) :
  deploymentData (serve rs emptyStore) !! k1 = Some l →
  deploymentData (serve rs emptyStore) !! k2 = Some l →
  k1 = k2.
Proof.
  apply serve_separated; [apply holds_emptyStore|].
  intros ? ? ? H. cbn in H. by rewrite lookup_empty in H.
Qed.

(** X16: a request leaves the record of every other client as it was, or,
    when its quota lookup sweeps the map, removes it if and only if it is
    expired at the time of the lookup; it never changes a field of it. *)
Theorem other_clients_untouched (rs : list (World * Request)) (w : World)
    (req : Request) (k : string) (d : QuotaInfo) :
  k ≠ getClientId req →
  record (serve rs emptyStore) k = Some d →
  record (snd (handler w req (serve rs emptyStore))) k
  = (if expired (lookupNow (clock w)) d then None else Some d)
  ∨ record (snd (handler w req (serve rs emptyStore))) k = Some d.
Proof.
  intros Hk Hrec.
  assert (Hs : allocated (serve rs emptyStore)) by apply serve_allocated.
  assert (Hsep : separated (serve rs emptyStore)).
  { apply serve_separated; [apply holds_emptyStore|].
    intros ? ? ? H. cbn in H. by rewrite lookup_empty in H. }
  destruct (handler_others w req _ Hs Hsep) as [_ H].
  destruct (H k Hk) as [-> | ->]; [by right|]. left. by rewrite Hrec.
Qed.

(** X14: the quota lookup of a client, in one piece: it returns the stored
    record of the client after the rollover, or a new record when there is
    none; and it leaves in the store, of that record for the client and of
    the stored record for every other client, what the sweep leaves. *)
Theorem lookup_result (rs : list (World * Request)) (now : Z)
    (today clientId : string) (s1 : Store) (q : ref) :
  getQuotaInfo now today clientId (serve rs emptyStore) = (q, s1) →
  let s := serve rs emptyStore in
  let d := rollover today (default (newQuota today) (record s clientId)) in
  deref s1 q = d ∧
  ∀ k, record s1 k = swept now (if decide (k = clientId) then Some d
                                else record s k).
Proof.
  intros Hq s d.
  assert (Hs : allocated s) by apply serve_allocated.
  assert (Hsep : separated s).
  { apply serve_separated; [apply holds_emptyStore|].
    intros ? ? ? H. cbn in H. by rewrite lookup_empty in H. }
  destruct (getQuotaInfo_data _ _ _ _ _ _ Hs Hq) as (Hd & Hderef & Hmap).
  destruct (getQuotaInfo_others _ _ _ _ _ _ Hs Hsep Hq) as (_ & _ & _ & _ & Hrec).
  split; [done|]. intros k. case_decide as Hk; [subst k|by apply Hrec].
  unfold record, swept. rewrite Hmap. fold s d.
  destruct (expired now d); [done|]. exact Hd.
Qed.

End Isolation.

(** * The daily cap *)

Lemma holds_ensure_absent (P : string → QuotaInfo → Prop)
    (today clientId : string) (s : Store) :
  holds P s →
  (deploymentData s !! clientId = None → P clientId (newQuota today)) →
  holds P (ensure today clientId s).
Proof.
  intros H Hnew. unfold ensure.
  destruct (deploymentData s !! clientId) eqn:E; [done|].
  intros k l. cbn [deploymentData heap]. rewrite lookup_insert. case_decide as Hk.
  - intros [= <-]. subst k. exists (newQuota today).
    rewrite lookup_app_r, Nat.sub_diag by done. auto.
  - intros Hl. destruct (H k l Hl) as (d & Hd & HP). exists d.
    split; [|done]. by apply lookup_app_l_Some.
Qed.

Lemma getQuotaInfo_holds_absent (P : string → QuotaInfo → Prop)
    (now : Z) (today clientId : string) (s s1 : Store) (q : ref) :
  holds P s →
  (deploymentData s !! clientId = None → P clientId (newQuota today)) →
  (∀ k d, P k d → P k (rollover today d)) →
  getQuotaInfo now today clientId s = (q, s1) →
  holds P s1 ∧ ∃ d, heap s1 !! q = Some d ∧ P clientId d ∧ lastReset d = today.
Proof.
  intros Hs Hnew Hroll Hget.
  pose proof (getQuotaInfo_data now today clientId s s1 q
                (holds_allocated P s Hs) Hget) as (Hq & _ & _).
  unfold getQuotaInfo in Hget. injection Hget as Eq <-.
  split.
  - apply holds_cleanup, holds_mutate; [by apply holds_ensure_absent|].
    intros k d _ _. apply Hroll.
  - eexists. split; [exact Hq|]. split; [|apply lastReset_rollover].
    apply Hroll. unfold record.
    destruct (deploymentData s !! clientId) as [l|] eqn:E; [|by apply Hnew].
    destruct (Hs _ _ E) as (d & Hd & HP). by rewrite Hd.
Qed.

Lemma capped_rollover (clientId day : string) (T n : Z) (k : string)
    (d : QuotaInfo) :
  0 ≤ n → capped clientId day T n k d → capped clientId day T n k (rollover day d).
Proof.
  intros Hn Hd Hk. destruct (Hd Hk) as (H1 & H2 & H3). unfold rollover.
  destruct (String.eqb_spec (lastReset d) day) as [E|E]; [done|].
  cbn. split; [lia|]. split; [|intros Hpos; by destruct (H3 Hpos)].
  intros _. destruct (decide (0 < n)) as [Hpos|]; [|lia]. by destruct (H3 Hpos).
Qed.

Lemma capped_decrement (clientId day : string) (T n : Z) (k : string)
    (d : QuotaInfo) :
  capped clientId day T n k d → capped clientId day T n k (decrement d).
Proof.
  intros Hd Hk. destruct (Hd Hk) as (H1 & H2 & H3). cbn.
  split; [lia|]. split; [intros E; specialize (H2 E); lia|done].
Qed.

Lemma capped_charged (clientId day : string) (T n : Z) (k : string)
    (c : Clock) (d : QuotaInfo) :
  T ≤ deployedNow c →
  capped clientId day T n k d → capped clientId day T n k (charged c d).
Proof.
  intros Hc Hd Hk. destruct (Hd Hk) as (H1 & H2 & H3). cbn.
  split; [lia|]. split; [intros E; specialize (H2 E); lia|].
  intros Hpos. destruct (H3 Hpos) as [E _]. split; [done|]. eauto.
Qed.

Lemma capped_not_expired (clientId day : string) (T n now : Z) (d : QuotaInfo) :
  0 < T → 0 < n → now ≤ T + 24 * 60 * 60 * 1000 →
  capped clientId day T n clientId d → expired now d = false.
Proof.
  intros HT Hn Hnow Hd. destruct (Hd eq_refl) as (_ & _ & H3).
  destruct (H3 Hn) as (_ & t & Ht & Hle). unfold expired. rewrite Ht.
  destruct (Z.eqb_spec t 0); lia.
Qed.

Section DailyCap.

Context {platform : Platform}.
Variables (clientId day : string) (T : Z).
Hypothesis HT : 0 < T.

Lemma getQuotaInfo_counted (n : Z) (c : Clock) (cid : string) (s s1 : Store)
    (q : ref) :
  0 ≤ n → dayClock day T c → counted clientId day T n s →
  getQuotaInfo (lookupNow c) (today c) cid s = (q, s1) →
  counted clientId day T n s1 ∧
  ∃ d, heap s1 !! q = Some d ∧ capped clientId day T n cid d ∧ lastReset d = day.
Proof.
  intros Hn (Hday & Hdep & Hlook) [Hin Hs] Hq. rewrite Hday in Hq.
  assert (Hnew : deploymentData s !! cid = None →
                 capped clientId day T n cid (newQuota day)).
  { intros Habs ->. destruct (decide (0 < n)) as [Hpos|Hpos].
    - destruct (Hin Hpos) as [l Hl]. congruence.
    - cbn. split; [lia|]. split; [lia|]. intros ?. lia. }
  assert (Hroll : ∀ k d, capped clientId day T n k d →
                         capped clientId day T n k (rollover day d)).
  { intros k d. by apply capped_rollover. }
  destruct (getQuotaInfo_holds_absent _ _ _ _ _ _ _ Hs Hnew Hroll Hq)
    as (Hs1 & d & Hd & Hcap & Hdated).
  split; [|by eauto]. split; [|done].
  intros Hpos. destruct (Hin Hpos) as [l Hl].
  unfold getQuotaInfo in Hq. injection Hq as _ <-.
  cbn [cleanup mutate deploymentData heap].
  assert (Hl1 : deploymentData (ensure day cid s) !! clientId = Some l).
  { unfold ensure. destruct (deploymentData s !! cid) eqn:E; [done|].
    cbn [deploymentData]. rewrite lookup_insert_ne; [done|]. congruence. }
  assert (Hs2 : holds (capped clientId day T n)
                  (mutate (rollover day) (deploymentData (ensure day cid s) !!! cid)
                          (ensure day cid s))).
  { apply holds_mutate.
    - apply holds_ensure_absent; [done|]. intros Habs ->.
      unfold ensure in Hl1. rewrite Habs in Hl1. cbn in Hl1.
      congruence.
    - intros k d0 _ _. by apply capped_rollover. }
  destruct (Hs2 clientId l Hl1) as (d2 & Hd2 & Hcap2).
  exists l. apply map_lookup_filter_Some. split; [done|]. cbn [snd].
  cbn [mutate heap] in Hd2. rewrite (list_lookup_total_correct _ _ _ Hd2).
  by apply (capped_not_expired clientId day T n).
Qed.

Lemma reply_not_deployed (w : World) (req : Request) (s s1 : Store) (r : Response) :
  prepare w req s = (Reply r, s1) → deployedOk r = false.
Proof.
  unfold prepare.
  destruct (String.eqb (method req) "OPTIONS"); [by intros [= <- _]|].
  destruct (negb (String.eqb (method req) "POST")); [by intros [= <- _]|].
  case_bool_decide.
  { unfold quotaCheck. destruct (getQuotaInfo _ _ _ _) as [q s'].
    intros [= <- _]. by destruct (_ >? _). }
  destruct (name req) as [nm|]; [|by intros [= <- _]].
  destruct (fileData req) as [fd|]; [|by intros [= <- _]].
  destruct (fileName req) as [fn|]; [|by intros [= <- _]].
  destruct (_ || _); [by intros [= <- _]|].
  destruct (negb (validName nm)); [by intros [= <- _]|].
  unfold admission. destruct (getQuotaInfo _ _ _ _) as [q s'].
  destruct (_ >? _); [by intros [= <- _]|].
  destruct (_ <=? _); [by intros [= <- _]|].
  unfold processUpload.
  destruct (Js.endsWith (Js.toLowerCase fn) ".zip").
  - destruct (openZip fd); [by intros [= <- _]|].
    destruct (negb (hasIndex _)); [by intros [= <- _]|].
    destruct (negb (truthy _)); [by intros [= <- _]|done].
  - destruct (_ || _); [|by intros [= <- _]].
    destruct (negb (truthy _)); [by intros [= <- _]|done].
Qed.

Lemma counted_step (n : Z) (w : World) (req : Request) (s : Store) :
  0 ≤ n → dayClock day T (clock w) → counted clientId day T n s →
  if String.eqb (getClientId req) clientId && deployedOk (fst (handler w req s))
  then n + 1 ≤ 50 ∧ counted clientId day T (n + 1) (snd (handler w req s))
  else counted clientId day T n (snd (handler w req s)).
Proof.
  intros Hn Hclock Hcount. unfold handler.
  destruct (prepare w req s) as [pr s1] eqn:Hp.
  assert (Hs1 : counted clientId day T n s1).
  { destruct (prepare_store _ _ _ _ _ Hp) as [->|[q Hq]]; [done|].
    by destruct (getQuotaInfo_counted n _ _ _ _ _ Hn Hclock Hcount Hq). }
  destruct pr as [r|nm fs cid q].
  { cbn [fst snd]. rewrite (reply_not_deployed _ _ _ _ _ Hp).
    by rewrite andb_false_r. }
  apply prepare_Submit in Hp as (fd & fn & _ & _ & _ & Hadm).
  apply admission_Submit in Hadm as (-> & Hq & _ & Hrem & _).
  destruct (getQuotaInfo_counted n _ _ _ _ _ Hn Hclock Hcount Hq)
    as (_ & d & Hd & Hcap & Hdated).
  unfold deref in Hrem. rewrite (list_lookup_total_correct _ _ _ Hd) in Hrem.
  destruct Hs1 as [Hin1 Hs1]. destruct Hclock as (Hday & Hdep & Hlook).
  destruct (vercel w) as [dep|e].
  - pose proof (settle_Resolved (clock w) nm (getClientId req) q d s1 Hd dep) as Hr.
    rewrite settle_Resolved_store.
    destruct (settle _ _ _ _ _ _) as [r s'] eqn:Hset. cbn [fst].
    destruct Hr as (Hst & _ & _).
    assert (deployedOk r = true) as ->.
    { cbn [settle] in Hset. injection Hset as <- _. unfold deployedOk, field.
      cbn. done. }
    rewrite andb_true_r.
    destruct (String.eqb_spec (getClientId req) clientId) as [E|E].
    + destruct (Hcap E) as (_ & Hsum & _). specialize (Hsum Hdated).
      split; [lia|]. split.
      { intros _. cbn [saveQuotaInfo deploymentData]. rewrite E, lookup_insert_eq.
        eauto. }
      intros k l. cbn [saveQuotaInfo mutate deploymentData heap].
      rewrite lookup_insert. case_decide as Hk.
      * intros [= <-]. exists (charged (clock w) d).
        rewrite list_lookup_alter_eq, Hd. split; [done|]. intros _. cbn.
        split; [lia|]. split; [lia|]. intros _. split; [done|]. eauto.
      * intros Hl. destruct (Hs1 k l Hl) as (d' & Hd' & _).
        destruct (decide (l = q)) as [->|Hne].
        -- exists (charged (clock w) d').
           rewrite list_lookup_alter_eq, Hd'. split; [done|]. intros ->.
           by rewrite E in Hk.
        -- exists d'. rewrite list_lookup_alter_ne by done. split; [done|].
           intros ->. by rewrite E in Hk.
    + split.
      { intros Hpos. cbn [saveQuotaInfo mutate deploymentData].
        rewrite lookup_insert_ne by done. auto. }
      apply (holds_charge _ _ _ _ d); try done.
      intros k Hk. by apply capped_charged.
  - cbn [settle]. destruct (nameTaken e); cbn [fst snd].
    + unfold deployedOk. cbn [status json]. change (400 =? 200) with false.
      cbn [andb]. rewrite andb_false_r. split.
      { intros Hpos. cbn [saveQuotaInfo mutate deploymentData].
        rewrite lookup_insert. case_decide; eauto. }
      apply (holds_charge _ _ _ _ d); try done.
      intros k Hk. by apply capped_decrement.
    + unfold deployedOk. cbn [status json]. change (500 =? 200) with false.
      cbn [andb]. by rewrite andb_false_r.
Qed.

Lemma counted_run (n : Z) (rs : list (World * Request)) (s : Store) :
  0 ≤ n ≤ 50 → counted clientId day T n s →
  Forall (λ wr, dayClock day T (clock wr.1)) rs →
  n + Z.of_nat (deploymentsOf clientId rs s) ≤ 50.
Proof.
  intros Hn Hs Hrs. revert n s Hn Hs.
  induction Hrs as [|[w req] rs Hw _ IH]; intros n s Hn Hs; [cbn; lia|].
  cbn [deploymentsOf]. cbn [fst] in Hw.
  pose proof (counted_step n w req s ltac:(lia) Hw Hs) as Hstep.
  destruct (String.eqb (getClientId req) clientId
            && deployedOk (fst (handler w req s))).
  - destruct Hstep as [Hle Hs']. specialize (IH (n + 1) _ ltac:(lia) Hs'). lia.
  - specialize (IH n _ Hn Hstep). lia.
Qed.

End DailyCap.

Section DailyCapTheorem.
Context {platform : Platform}.

(** X17: whatever requests came before, among requests of one calendar
    date whose clocks lie within 24 hours, at most 50 are answered as
    successful deployments of any one client. *)
Theorem at_most_fifty_deployments_a_day (clientId day : string) (T : Z)
    (before rs : list (World * Request)) :
  0 < T →
  Forall (λ wr, dayClock day T (clock wr.1)) rs →
  (deploymentsOf clientId rs (serve before emptyStore) ≤ 50)%nat.
Proof.
  intros HT Hrs.
  assert (H : holds (λ _ d, remaining d ≤ 50) (serve before emptyStore)).
  { apply serve_holds; [|apply holds_emptyStore].
    apply Forall_forall. intros [w req] _. cbn [fst]. split; [|split].
    - intros _. cbn. lia.
    - intros _ d' Hd'. unfold rollover. destruct (String.eqb _ _); cbn; lia.
    - intros _ d' Hd' _ Hpos. cbn. lia. }
  pose proof (counted_run clientId day T HT 0 rs (serve before emptyStore)
                ltac:(lia)) as Hrun.
  assert (Hcount : counted clientId day T 0 (serve before emptyStore)).
  { split; [lia|]. intros k l Hk. destruct (H k l Hk) as (d & Hd & Hle).
    exists d. split; [done|]. intros _. split; [done|]. split; [lia|lia]. }
  specialize (Hrun Hcount Hrs). lia.
Qed.

End DailyCapTheorem.

(** * The shape of the responses *)

Section Contract.
Context {platform : Platform}.

Ltac shaped :=
  split; [cbn; set_solver|split; [intros ?; try done; cbn; eauto|
                                   intros ?; try done; cbn; eauto]].

Lemma reply_wellShaped (w : World) (req : Request) (s s1 : Store) (r : Response) :
  prepare w req s = (Reply r, s1) → wellShaped r.
Proof.
  unfold prepare.
  destruct (String.eqb (method req) "OPTIONS"); [intros [= <- _]; shaped|].
  destruct (negb (String.eqb (method req) "POST")); [intros [= <- _]; shaped|].
  case_bool_decide.
  { unfold quotaCheck. destruct (getQuotaInfo _ _ _ _) as [q s'].
    intros [= <- _]. shaped. }
  destruct (name req) as [nm|]; [|intros [= <- _]; shaped].
  destruct (fileData req) as [fd|]; [|intros [= <- _]; shaped].
  destruct (fileName req) as [fn|]; [|intros [= <- _]; shaped].
  destruct (_ || _); [intros [= <- _]; shaped|].
  destruct (negb (validName nm)); [intros [= <- _]; shaped|].
  unfold admission. destruct (getQuotaInfo _ _ _ _) as [q s'].
  destruct (_ >? _); [intros [= <- _]; shaped|].
  destruct (_ <=? _); [intros [= <- _]; shaped|].
  unfold processUpload.
  destruct (Js.endsWith (Js.toLowerCase fn) ".zip").
  - destruct (openZip fd); [intros [= <- _]; shaped|].
    destruct (negb (hasIndex _)); [intros [= <- _]; shaped|].
    destruct (negb (truthy _)); [intros [= <- _]; shaped|done].
  - destruct (_ || _); [|intros [= <- _]; shaped].
    destruct (negb (truthy _)); [intros [= <- _]; shaped|done].
Qed.

(** X18: every response has one of the statuses 200, 400, 405, 429 and 500;
    every response whose status is not 200 carries an error message, and
    every response with status 429 carries the remaining quota. *)
Theorem response_contract (w : World) (req : Request) (s : Store) :
  wellShaped (fst (handler w req s)).
Proof.
  unfold handler. destruct (prepare w req s) as [[r|nm fs cid q] s1] eqn:Hp.
  - by apply reply_wellShaped in Hp.
  - unfold settle. destruct (vercel w) as [dep|e]; [shaped|].
    destruct (nameTaken e); shaped.
Qed.

End Contract.

(** * The scenario, worked *)

Import Scenario.

Lemma isSafeFile_examples :
  map isSafeFile ["index.html"; "a.exe"; "../../etc/passwd"; ".htaccess";
                  "a..b.css"; "css/Main.CSS"; ".hidden.css"; "a//b.js"]
  = [true; false; false; false; false; true; false; false].
Proof. reflexivity. Qed.

Lemma extname_examples :
  map Path.extname ["index.html"; "index.coffee.md"; "index."; "index";
                    ".index"; ".index.md"; ".."; "a/b.d/c"; ".htaccess"]
  = [".html"; ".md"; "."; ""; ""; ".md"; ""; ""; ""].
Proof. reflexivity. Qed.

Lemma remaining_in_range_witness :
  let d := {| remaining := 49; lastReset := monday;
              lastDeployment := Some monday_12_00;
              cooldownUntil := monday_12_00 + 5 * minute |} in
  record (serve (platform := libraries) mondayDeployment emptyStore) client = Some d
  ∧ 0 ≤ remaining d ≤ 50.
Proof.
  intros d.
  assert (H : record (serve (platform := libraries) mondayDeployment emptyStore) client
              = Some d) by (vm_compute; reflexivity).
  split; [exact H|].
  exact (remaining_in_range (platform := libraries) mondayDeployment client d H).
Defined.

(** The archive of the scenario: the file kept is made of its entry named
    index.html, whose data is <html>, and the upload goes through with it. *)
Lemma archive_keeps_index_only_witness :
  extractEntries (platform := libraries) archive
  = [ {| filepath := "index.html"; content := "<html>"; isBuffer := false |} ]
  ∧ processUpload (platform := libraries) "Site.ZIP" "UEsDBA=="
    = inr [ {| filepath := "index.html"; content := "<html>"; isBuffer := false |} ].
Proof.
  assert (H : map entryName (filter (λ e, isDirectory e = false) archive)
              ≡ₚ ["index.html"; "a.exe"; "../../etc/passwd"])
    by (vm_compute; reflexivity).
  destruct (archive_keeps_index_only (platform := libraries) archive H)
    as (_ & _ & _ & entry & Hin & Hdir & Hname & Hkept & _ & Hup).
  assert (Hentry : entry = {| entryName := "index.html"; isDirectory := false;
                              getData := "<html>" |}).
  { unfold archive in Hin. rewrite !elem_of_cons in Hin.
    destruct Hin as [->|[->|[->|[->|Hin]]]];
      [discriminate Hdir|reflexivity|discriminate Hname|discriminate Hname|].
    by apply elem_of_nil in Hin. }
  rewrite Hentry in Hkept, Hup. split; [exact Hkept|].
  exact (Hup "Site.ZIP" "UEsDBA==" eq_refl eq_refl).
Defined.

(** The page of the scenario is submitted as index.html, as it came. *)
Lemma html_upload_single_file_witness :
  processUpload (platform := libraries) "page.htm" "PGh0bWw+"
  = inr [ {| filepath := "index.html"; content := "PGh0bWw+"; isBuffer := false |} ]
  ∧ fst (prepare (platform := libraries)
           (world monday_12_00 monday deployed) deploy emptyStore)
    = Submit "my-site" [("index.html", "PGh0bWw+")] client 0%nat.
Proof.
  assert (H : Js.endsWith (Js.toLowerCase "page.htm") ".html" = true
              ∨ Js.endsWith (Js.toLowerCase "page.htm") ".htm" = true)
    by (right; reflexivity).
  split; [exact (proj1 (html_upload_single_file (platform := libraries)
                          "page.htm" "PGh0bWw+" H))|].
  vm_compute. reflexivity.
Defined.

(** After forty-nine deployments on Monday the fiftieth leaves remaining at 0
    and starts a cooldown all the same. *)
Lemma success_charges_and_cools_witness :
  let now := monday_12_00 + 49 * (6 * minute) in
  record (snd (handler (platform := libraries) (world now monday deployed) deploy
                 (serve (platform := libraries) busyMonday emptyStore))) client
  = Some {| remaining := 0; lastReset := monday; lastDeployment := Some now;
            cooldownUntil := now + 5 * 60 * 1000 |}.
Proof.
  intros now.
  pose (s := serve (platform := libraries) busyMonday emptyStore).
  pose (w := world now monday deployed).
  assert (Hp : prepare (platform := libraries) w deploy s
               = (Submit "my-site" [("index.html", "PGh0bWw+")] client 0%nat,
                  snd (prepare (platform := libraries) w deploy s)))
    by (vm_compute; reflexivity).
  destruct (success_charges_and_cools (platform := libraries) w deploy s _ _ _ _ _
              {| url := Some "my-site.vercel.app"; id := Some "dpl_1" |} now
              (serve_allocated busyMonday) Hp eq_refl eq_refl eq_refl)
    as (_ & _ & _ & H).
  exact H.
Defined.

(** Six minutes after the deployment of Monday the name is taken: the record
    goes from 49 to 48, and its cooldownUntil stays at five past noon.  When
    the name is taken on Tuesday at eleven instead, the record of Monday is
    first reset: it ends with remaining 49 and cooldownUntil 0. *)
Lemma name_taken_charges_one_witness :
  let s := serve (platform := libraries) mondayDeployment emptyStore in
  let w2 := world tuesday_11_00 tuesday taken in
  record s client
  = Some {| remaining := 49; lastReset := monday;
            lastDeployment := Some monday_12_00;
            cooldownUntil := monday_12_00 + 5 * minute |} ∧
  status (fst (handler (platform := libraries) mondayRefusal.1 mondayRefusal.2 s))
  = 400 ∧
  record (snd (handler (platform := libraries) mondayRefusal.1 mondayRefusal.2 s))
         client
  = Some {| remaining := 48; lastReset := monday;
            lastDeployment := Some monday_12_00;
            cooldownUntil := monday_12_00 + 5 * minute |} ∧
  record (snd (handler (platform := libraries) w2 deploy s)) client
  = Some {| remaining := 49; lastReset := tuesday;
            lastDeployment := Some monday_12_00;
            cooldownUntil := 0 |}.
Proof.
  intros s w2. pose (w := mondayRefusal.1).
  assert (Hrec : record s client
                 = Some {| remaining := 49; lastReset := monday;
                           lastDeployment := Some monday_12_00;
                           cooldownUntil := monday_12_00 + 5 * minute |})
    by (vm_compute; reflexivity).
  assert (Hp : prepare (platform := libraries) w deploy s
               = (Submit "my-site" [("index.html", "PGh0bWw+")] client 0%nat,
                  snd (prepare (platform := libraries) w deploy s)))
    by (vm_compute; reflexivity).
  assert (Hp2 : prepare (platform := libraries) w2 deploy s
                = (Submit "my-site" [("index.html", "PGh0bWw+")] client 0%nat,
                   snd (prepare (platform := libraries) w2 deploy s)))
    by (vm_compute; reflexivity).
  destruct (name_taken_charges_one (platform := libraries) w deploy s _ _ _ _ _
              {| code := Some "name_already_exists";
                 message := Some "Project already exists" |}
              (serve_allocated mondayDeployment) Hp eq_refl
              (or_introl eq_refl))
    as (_ & H1 & _ & H2 & H3 & _).
  destruct (name_taken_charges_one (platform := libraries) w2 deploy s _ _ _ _ _
              {| code := Some "name_already_exists";
                 message := Some "Project already exists" |}
              (serve_allocated mondayDeployment) Hp2 eq_refl
              (or_introl eq_refl))
    as (_ & _ & _ & H4 & _ & _).
  split; [exact Hrec|]. split; [exact H1|]. split.
  - etransitivity; [exact H2|]. by rewrite (H3 _ Hrec eq_refl).
  - etransitivity; [exact H4|]. rewrite Hrec. reflexivity.
Defined.

(** C4, as the claim has it, fails.  On Monday at noon the client deploys:
    its record has remaining 49 and cooldownUntil five past noon.  On
    Tuesday at eleven a deployment of the client is admitted and the
    provider answers that the name is taken.  The response has status 400
    and reports 49; the stored remaining is 49 after the request as it was
    before, not one less, and cooldownUntil, five past noon of Monday
    before the request, is 0 after it: the quota lookup of the request
    reset both before the charge. *)
Lemma name_taken_after_rollover :
  let s := serve (platform := libraries) mondayDeployment emptyStore in
  let w := world tuesday_11_00 tuesday taken in
  let after := snd (handler (platform := libraries) w deploy s) in
  fst (prepare (platform := libraries) w deploy s)
  = Submit "my-site" [("index.html", "PGh0bWw+")] client 0%nat ∧
  status (fst (handler (platform := libraries) w deploy s)) = 400 ∧
  numberField "remainingQuota" (fst (handler (platform := libraries) w deploy s))
  = Some 49 ∧
  remaining <$> record s client = Some 49 ∧
  remaining <$> record after client = Some 49 ∧
  remaining <$> record after client ≠ Some (49 - 1) ∧
  cooldownUntil <$> record s client = Some (monday_12_00 + 5 * minute) ∧
  cooldownUntil <$> record after client = Some 0 ∧
  cooldownUntil <$> record after client ≠ cooldownUntil <$> record s client.
Proof. vm_compute. repeat split; try reflexivity; discriminate. Qed.

(** After fifty deployments on Monday the quota is spent: a further request
    is refused with 429 and remainingQuota 0, six minutes after the last
    deployment, when no cooldown runs, as well as one minute after it, when
    one does. *)
Lemma exhausted_quota_rejected_witness :
  let s := serve (platform := libraries) soldOutMonday emptyStore in
  let later := world (monday_12_00 + 50 * (6 * minute)) monday deployed in
  let sooner := world (monday_12_00 + 49 * (6 * minute) + minute) monday deployed in
  (status (fst (handler (platform := libraries) later deploy s)) = 429 ∧
   numberField "remainingQuota" (fst (handler (platform := libraries) later deploy s))
   = Some 0) ∧
  (status (fst (handler (platform := libraries) sooner deploy s)) = 429 ∧
   numberField "remainingQuota" (fst (handler (platform := libraries) sooner deploy s))
   = Some 0 ∧
   field "cooldown" (fst (handler (platform := libraries) sooner deploy s))
   = Some (JBool true)).
Proof.
  intros s later sooner.
  assert (Hname : "my-site" ≠ "quota-check") by discriminate.
  assert (Hfd : "PGh0bWw+" ≠ "") by discriminate.
  assert (Hfn : "page.htm" ≠ "") by discriminate.
  split.
  - apply (exhausted_quota_rejected (platform := libraries) later deploy s
             (snd (getQuotaInfo (lookupNow (clock later)) monday client s))
             "my-site" "PGh0bWw+" "page.htm" 0%nat);
      try reflexivity; try assumption; vm_compute; reflexivity.
  - destruct (exhausted_quota_rejected (platform := libraries) sooner deploy s
             (snd (getQuotaInfo (lookupNow (clock sooner)) monday client s))
             "my-site" "PGh0bWw+" "page.htm" 0%nat) as [H1 H2];
      try reflexivity; try assumption; try (vm_compute; reflexivity).
    split; [exact H1|]. split; [exact H2|]. vm_compute. reflexivity.
Defined.



(** Two quota checks on Monday afternoon report the 49 of the record and
    leave the record as it is.  Two quota checks on Tuesday at 11:00 and
    11:10 meet the record of Monday: the first resets it, both report 50,
    and the record has 50 after them. *)
Lemma quota_check_keeps_remaining_witness :
  let s := serve (platform := libraries) mondayDeployment emptyStore in
  let rs := twoChecks (monday_12_00 + minute) monday in
  let rs2 := twoChecks tuesday_11_00 tuesday in
  map (numberField "remainingQuota") (replies (platform := libraries) rs s)
  = [Some 49; Some 49]
  ∧ record (serve (platform := libraries) rs s) client = record s client
  ∧ Forall (λ r, status r = 200 ∧ numberField "remainingQuota" r = Some 50)
           (replies (platform := libraries) rs2 s)
  ∧ record (serve (platform := libraries) rs2 s) client
    = Some {| remaining := 50; lastReset := tuesday;
              lastDeployment := Some monday_12_00; cooldownUntil := 0 |}.
Proof.
  intros s rs rs2.
  pose (d := {| remaining := 49; lastReset := monday;
                lastDeployment := Some monday_12_00;
                cooldownUntil := monday_12_00 + 5 * minute |}).
  assert (Hrec : record s client = Some d) by (vm_compute; reflexivity).
  assert (Hrs : Forall (λ wr, method wr.2 = "POST" ∧ name wr.2 = Some "quota-check" ∧
                  getClientId (platform := libraries) wr.2 = client ∧
                  today (clock wr.1) = monday ∧
                  expired (lookupNow (clock wr.1))
                    (rollover monday (default (newQuota monday) (record s client)))
                  = false) rs)
    by (repeat constructor).
  assert (Hrs2 : Forall (λ wr, method wr.2 = "POST" ∧ name wr.2 = Some "quota-check" ∧
                  getClientId (platform := libraries) wr.2 = client ∧
                  today (clock wr.1) = tuesday ∧
                  expired (lookupNow (clock wr.1))
                    (rollover tuesday (default (newQuota tuesday) (record s client)))
                  = false) rs2)
    by (repeat constructor).
  destruct (quota_check_keeps_remaining (platform := libraries) monday client rs s
              (serve_allocated mondayDeployment) Hrs) as (_ & _ & H1 & _).
  destruct (quota_check_keeps_remaining (platform := libraries) tuesday client rs2 s
              (serve_allocated mondayDeployment) Hrs2) as (H2 & H3 & _ & _).
  split; [vm_compute; reflexivity|].
  split; [rewrite Hrec; exact (proj2 (H1 d Hrec eq_refl))|].
  split.
  - rewrite Hrec in H2. exact H2.
  - rewrite Hrec in H3. apply H3. discriminate.
Defined.

(** C9, as the claim has it, fails.  On Monday at noon the client deploys; on
    Tuesday at eleven a deployment of the client is refused because the name
    is taken, which charges the record, reset that morning, down to 49 and
    leaves lastDeployment at Monday noon.  Two quota checks follow on Tuesday
    at 13:00 and 13:10, with no deployment in between.  The first reports 49,
    and its sweep removes the record, whose lastDeployment is now 25 hours
    old; the second finds no record, creates one, and reports 50.  Nor does
    it take the sweep: two quota checks on Tuesday at 11:00 and 11:10 that
    meet the record of Monday, with its 49, both report 50 and leave 50 in
    the record, the first of them having made the daily reset. *)
Lemma quota_check_changes_remaining :
  let s := serve (platform := libraries) tuesdayRefusal emptyStore in
  let rs := twoChecks tuesday_13_00 tuesday in
  let s0 := serve (platform := libraries) mondayDeployment emptyStore in
  let rs0 := twoChecks tuesday_11_00 tuesday in
  remaining <$> record s client = Some 49 ∧
  lastReset <$> record s client = Some tuesday ∧
  map (numberField "remainingQuota") (replies (platform := libraries) rs s)
  = [Some 49; Some 50] ∧
  remaining <$> record (serve (platform := libraries) rs s) client = Some 50 ∧
  remaining <$> record (serve (platform := libraries) rs s) client
  ≠ remaining <$> record s client ∧
  remaining <$> record s0 client = Some 49 ∧
  map (numberField "remainingQuota") (replies (platform := libraries) rs0 s0)
  = [Some 50; Some 50] ∧
  remaining <$> record (serve (platform := libraries) rs0 s0) client = Some 50.
Proof. vm_compute. repeat split; try reflexivity. discriminate. Qed.

(** * More of the scenario *)

Lemma isSafeFile_case_insensitive_witness :
  isSafeFile "Assets/Logo.PNG" = isSafeFile "assets/logo.png" ∧
  isSafeFile "Assets/Logo.PNG" = true.
Proof.
  split; [|reflexivity].
  apply (isSafeFile_case_insensitive "Assets/Logo.PNG" "assets/logo.png").
  reflexivity.
Defined.

Lemma isSafeFile_leading_slash_witness :
  isSafeFile "/etc/cron.d/job.txt" = isSafeFile "etc/cron.d/job.txt" ∧
  isSafeFile "/etc/cron.d/job.txt" = true.
Proof.
  split; [|reflexivity].
  apply (isSafeFile_leading_slash "etc/cron.d/job.txt"). reflexivity.
Defined.

Lemma processUpload_file_set_witness :
  ∃ files, processUpload (platform := libraries) "Site.ZIP" "UEsDBA==" = inr files ∧
           files ≠ [] ∧
           Forall (λ f, isSafeFile (filepath f) = true ∧ isBuffer f = false) files.
Proof.
  eexists. split; [vm_compute; reflexivity|].
  destruct (processUpload_file_set (platform := libraries) "Site.ZIP" "UEsDBA==" _
              eq_refl) as (H1 & _ & H2).
  split; [exact H1|exact H2].
Defined.

(** The page of the nested archive sits in a folder: the upload is refused. *)
Lemma archive_accepted_iff_witness :
  processUpload (platform := librariesNested) "site.zip" "UEsDBA=="
  = inl (json 400 [("error", JStr "ZIP harus ada index.html")]).
Proof.
  destruct (archive_accepted_iff (platform := librariesNested)
              "site.zip" "UEsDBA==" nestedArchive eq_refl eq_refl)
    as [[H _]|[H _]]; [|exact H].
  vm_compute in H. discriminate H.
Defined.

Lemma turned_away_leaves_store_witness :
  let s := serve (platform := libraries) mondayDeployment emptyStore in
  let w := world (monday_12_00 + minute) monday deployed in
  snd (handler (platform := libraries) w misnamed s) = s ∧
  status (fst (handler (platform := libraries) w misnamed s)) = 400.
Proof.
  intros s w.
  assert (H : turnedAway misnamed).
  { right. split; [discriminate|]. do 3 right. by exists "My Site". }
  destruct (turned_away_leaves_store (platform := libraries) w misnamed s H)
    as (H1 & _ & _ & H2).
  split; [exact H1|].
  apply H2; [reflexivity|]. left. by exists "My Site".
Defined.

Lemma submission_gate_witness :
  validName "my-site" = true ∧ "my-site" ≠ "quota-check" ∧
  ∃ path data, (path, data) ∈ [("index.html", "PGh0bWw+")] ∧
               Js.toLowerCase path = "index.html".
Proof.
  pose (w := world monday_12_00 monday deployed).
  assert (Hp : prepare (platform := libraries) w deploy emptyStore
               = (Submit "my-site" [("index.html", "PGh0bWw+")] client 0%nat,
                  snd (prepare (platform := libraries) w deploy emptyStore)))
    by (vm_compute; reflexivity).
  destruct (submission_gate (platform := libraries) w deploy emptyStore _ _ _ _ _ Hp)
    as (_ & _ & H1 & H2 & _ & _ & _ & H3).
  split; [exact H1|]. split; [exact H2|exact H3].
Defined.

Lemma other_failure_not_charged_witness :
  let s := serve (platform := libraries) mondayDeployment emptyStore in
  let w := world (monday_12_00 + 6 * minute) monday down in
  status (fst (handler (platform := libraries) w deploy s)) = 500 ∧
  field "error" (fst (handler (platform := libraries) w deploy s))
  = Some (JStr "Deployment gagal") ∧
  record (snd (handler (platform := libraries) w deploy s)) client = record s client.
Proof.
  intros s w.
  assert (Hp : prepare (platform := libraries) w deploy s
               = (Submit "my-site" [("index.html", "PGh0bWw+")] client 0%nat,
                  snd (prepare (platform := libraries) w deploy s)))
    by (vm_compute; reflexivity).
  destruct (other_failure_not_charged (platform := libraries) w deploy s _ _ _ _ _
              None Hp eq_refl eq_refl) as (H1 & H2 & H3 & _).
  split; [exact H2|]. split; [exact H3|]. rewrite H1. vm_compute. reflexivity.
Defined.

Lemma cooldown_after_success_witness :
  let r := fst (handler (platform := libraries)
                  (world (monday_12_00 + 2 * minute) monday deployed) deploy
                  (serve (platform := libraries) mondayDeployment emptyStore)) in
  status r = 429 ∧ field "cooldown" r = Some (JBool true) ∧
  numberField "remainingQuota" r = Some 49 ∧
  numberField "remainingSeconds" r = Some 180.
Proof.
  pose (w1 := world monday_12_00 monday deployed).
  pose (w2 := world (monday_12_00 + 2 * minute) monday deployed).
  assert (Hp : prepare (platform := libraries) w1 deploy emptyStore
               = (Submit "my-site" [("index.html", "PGh0bWw+")] client 0%nat,
                  snd (prepare (platform := libraries) w1 deploy emptyStore)))
    by (vm_compute; reflexivity).
  assert (Hreq : deployRequest deploy "my-site" "PGh0bWw+" "page.htm")
    by (repeat split; discriminate).
  assert (Hsoon : checkNow (clock w2) < cooldownNow (clock w1) + 5 * 60 * 1000)
    by (vm_compute; reflexivity).
  destruct (cooldown_after_success (platform := libraries) w1 w2 deploy deploy
              emptyStore _ _ _ _ _ _ _ _ _
              (holds_emptyStore _) Hp eq_refl Hreq eq_refl eq_refl Hsoon)
    as (H1 & H2 & H3 & H4 & _).
  intros r. split; [exact H1|]. split; [exact H2|]. split; [exact H3|exact H4].
Defined.

Lemma fresh_quota_not_rate_limited_witness :
  status (fst (handler (platform := libraries)
                 (world tuesday_11_00 tuesday down) deploy
                 (serve (platform := libraries) soldOutMonday emptyStore))) ≠ 429.
Proof.
  assert (Hreq : deployRequest deploy "my-site" "PGh0bWw+" "page.htm")
    by (repeat split; discriminate).
  apply (fresh_quota_not_rate_limited (platform := libraries)
           (world tuesday_11_00 tuesday down) deploy _ _ _ _
           (serve_allocated soldOutMonday) Hreq).
  - intros d Hd. vm_compute in Hd. injection Hd as <-. discriminate.
  - vm_compute. discriminate.
Defined.

Lemma retry_after_name_taken_not_delayed_witness :
  let r := fst (handler (platform := libraries)
                  (world tuesday_11_00 tuesday deployed) deploy
                  (serve (platform := libraries) tuesdayRefusal emptyStore)) in
  status r ≠ 429 ∧ status r = 200.
Proof.
  pose (s := serve (platform := libraries) mondayDeployment emptyStore).
  pose (w1 := world tuesday_11_00 tuesday taken).
  pose (w2 := world tuesday_11_00 tuesday deployed).
  assert (Hp : prepare (platform := libraries) w1 deploy s
               = (Submit "my-site" [("index.html", "PGh0bWw+")] client 0%nat,
                  snd (prepare (platform := libraries) w1 deploy s)))
    by (vm_compute; reflexivity).
  assert (Hreq : deployRequest deploy "my-site" "PGh0bWw+" "page.htm")
    by (repeat split; discriminate).
  assert (Hrem : 2 ≤ remaining (deref (snd (prepare (platform := libraries) w1 deploy s))
                                      0%nat))
    by (vm_compute; discriminate).
  assert (Hlater : checkNow (clock w1) ≤ checkNow (clock w2))
    by (vm_compute; discriminate).
  pose proof (retry_after_name_taken_not_delayed (platform := libraries)
                w1 w2 deploy deploy s _ _ _ _ _ _ _ _ _
                (serve_allocated mondayDeployment) Hp eq_refl eq_refl Hreq
                eq_refl eq_refl Hlater Hrem) as H.
  split; [exact H|vm_compute; reflexivity].
Defined.

Lemma quota_check_registers_client_witness :
  let w := world monday_12_00 monday deployed in
  fst (handler (platform := libraries) w check emptyStore)
  = json 200 [("remainingQuota", JNum 50)] ∧
  record (snd (handler (platform := libraries) w check emptyStore)) client
  = Some (newQuota monday).
Proof.
  intros w.
  assert (Hnow : 0 ≤ checkNow (clock w)) by (vm_compute; discriminate).
  exact (quota_check_registers_client (platform := libraries) w check emptyStore
           (holds_emptyStore _) eq_refl eq_refl eq_refl Hnow).
Defined.

Lemma lookup_result_witness :
  let s := serve (platform := libraries) twoClients emptyStore in
  let s1 := snd (getQuotaInfo tuesday_13_00 tuesday otherClient s) in
  deref s1 1%nat
  = {| remaining := 50; lastReset := tuesday;
       lastDeployment := Some (monday_12_00 + minute); cooldownUntil := 0 |} ∧
  record s1 client = None ∧ record s1 otherClient = None.
Proof.
  intros s s1.
  assert (Hq : getQuotaInfo tuesday_13_00 tuesday otherClient
                 (serve (platform := libraries) twoClients emptyStore) = (1%nat, s1))
    by (vm_compute; reflexivity).
  destruct (lookup_result (platform := libraries) twoClients tuesday_13_00 tuesday
              otherClient s1 1%nat Hq) as [H1 H2].
  split; [rewrite H1; vm_compute; reflexivity|].
  split; [rewrite (H2 client)|rewrite (H2 otherClient)]; vm_compute; reflexivity.
Defined.

Lemma clients_never_share_a_record_witness :
  deploymentData (serve (platform := libraries) twoClients emptyStore) !! client
  = Some 0%nat ∧
  deploymentData (serve (platform := libraries) twoClients emptyStore) !! otherClient
  ≠ Some 0%nat.
Proof.
  assert (H1 : deploymentData (serve (platform := libraries) twoClients emptyStore)
               !! client = Some 0%nat) by (vm_compute; reflexivity).
  split; [exact H1|]. intros H2.
  pose proof (clients_never_share_a_record (platform := libraries) twoClients
                client otherClient 0%nat H1 H2) as E.
  discriminate E.
Defined.

Lemma other_clients_untouched_witness :
  record (snd (handler (platform := libraries)
                 (world (monday_12_00 + 10 * minute) monday deployed) deploy
                 (serve (platform := libraries) twoClients emptyStore))) otherClient
  = record (serve (platform := libraries) twoClients emptyStore) otherClient.
Proof.
  pose (d := {| remaining := 49; lastReset := monday;
                lastDeployment := Some (monday_12_00 + minute);
                cooldownUntil := monday_12_00 + minute + 5 * minute |}).
  assert (Hrec : record (serve (platform := libraries) twoClients emptyStore)
                   otherClient = Some d) by (vm_compute; reflexivity).
  assert (Hk : otherClient ≠ getClientId (platform := libraries) deploy)
    by discriminate.
  destruct (other_clients_untouched (platform := libraries) twoClients
              (world (monday_12_00 + 10 * minute) monday deployed) deploy
              otherClient d Hk Hrec) as [H|H];
    rewrite H, Hrec; [vm_compute|]; reflexivity.
Defined.

(** Of fifty-one deployment requests on Monday, fifty succeed. *)
Lemma at_most_fifty_deployments_a_day_witness :
  deploymentsOf (platform := libraries) client (deployments 51) emptyStore = 50%nat
  ∧ (deploymentsOf (platform := libraries) client (deployments 51) emptyStore
     ≤ 50)%nat.
Proof.
  assert (Hrs : Forall (λ wr, dayClock monday monday_12_00 (clock wr.1))
                       (deployments 51)).
  { apply Forall_forall. intros [w req] Hin.
    apply list_elem_of_In, in_map_iff in Hin as (i & [= <- _] & Hi%in_seq).
    unfold dayClock, world. cbn [clock today deployedNow lookupNow fst].
    split; [reflexivity|]. unfold monday_12_00, minute. lia. }
  split; [vm_compute; reflexivity|].
  exact (at_most_fifty_deployments_a_day (platform := libraries)
           client monday monday_12_00 [] (deployments 51) eq_refl Hrs).
Defined.
